(** * SMARTerFHIR: vendor dispatch and resource hydration

    A shallow embedding of the client core of SMARTerFHIR
    ([Client/utils.ts], [Client/BaseClient.ts], [Client/CernerClient.ts] and
    the compiled [Client/ClientFactory.js]) together with the properties the
    specification states about it.

    JavaScript objects are finite maps from property names to values,
    exceptions are an explicit result type, and an [async] method is a
    computation that reads the clock, emits the calls it makes on the session
    and ends in a value or in a thrown error. *)

From stdpp Require Import base strings gmap list pretty.

#[local] Set Warnings "-register-all".

(** ** JavaScript values, exceptions and strings *)

Module Js.

(** The numbers of this development are the safe integers, those of
    absolute value at most [Number.MAX_SAFE_INTEGER]: each of them is a
    JavaScript number, and each prints as its decimal digits.  Fractions,
    [NaN] and the infinities are left out. *)
Definition MAX_SAFE_INTEGER : Z := 9007199254740991.

Record SafeInteger : Type := {
  int_value : Z;
  int_safe : Is_true (Z.abs int_value <=? MAX_SAFE_INTEGER)%Z;
}.

(** The JSON fragment of JavaScript values, with [undefined]. *)
Inductive JsVal : Type :=
  | JUndefined
  | JNull
  | JBool (b : bool)
  | JNum (n : SafeInteger)
  | JStr (s : string)
  | JArr (l : list JsVal)
  | JObj (o : gmap string JsVal).

Abbreviation JsObj := (gmap string JsVal).

(** The properties of a value, [∅] for anything that is not an object. *)
Definition props (v : JsVal) : JsObj :=
  match v with JObj o => o | _ => ∅ end.

(** [ToBoolean]: what [!v] and [v ? a : b] test. *)
Definition js_truthy (v : JsVal) : bool :=
  match v with
  | JUndefined | JNull => false
  | JBool b => b
  | JNum n => negb (int_value n =? 0)%Z
  | JStr s => negb (String.eqb s "")
  | JArr _ | JObj _ => true
  end.

(** [ToString], as used by [+] with a string and by template literals.  An
    array is its elements joined by commas, [null] and [undefined] elements
    printing as nothing; a plain object is ["[object Object]"]. *)
Fixpoint js_toString (v : JsVal) : string :=
  match v with
  | JUndefined => "undefined"
  | JNull => "null"
  | JBool b => if b then "true" else "false"
  | JNum n => pretty (int_value n)
  | JStr s => s
  | JArr l =>
      let elem x :=
        match x with JUndefined | JNull => "" | _ => js_toString x end in
      (fix join (l : list JsVal) : string :=
         match l with
         | [] => ""
         | [x] => elem x
         | x :: r => elem x +:+ "," +:+ join r
         end) l
  | JObj _ => "[object Object]"
  end.

(** [k in o]. *)
Definition js_in (k : string) (o : JsObj) : bool :=
  match o !! k with Some _ => true | None => false end.

(** The object literal [{...o, ...ext}]: the properties of [ext] win. *)
Definition spread (o ext : JsObj) : JsObj := ext ∪ o.

(** What a [throw] carries: an [Error] object (its [name] and [message]), or
    any other value. *)
Inductive Thrown : Type :=
  | ErrorObj (name message : string)
  | ThrownVal (v : JsVal).

Definition new_Error (message : string) : Thrown := ErrorObj "Error" message.
Definition new_TypeError (message : string) : Thrown := ErrorObj "TypeError" message.

(** [Error.prototype.toString] for error objects, [ToString] otherwise. *)
Definition thrown_toString (e : Thrown) : string :=
  match e with
  | ErrorObj name message =>
      if String.eqb name "" then message
      else if String.eqb message "" then name
      else name +:+ ": " +:+ message
  | ThrownVal v => js_toString v
  end.

(** An evaluation either completes with a value or throws. *)
Inductive Result (A : Type) : Type :=
  | Ok (a : A)
  | Throw (e : Thrown).
Arguments Ok {A} a.
Arguments Throw {A} e.

#[export] Instance Result_ret : MRet Result := λ A a, Ok a.
#[export] Instance Result_bind : MBind Result := λ A B f r,
  match r with Ok a => f a | Throw e => Throw e end.

(** The property read [v.k].  Reading a property of [undefined] or [null]
    throws; an object gives the property or [undefined]; the other values
    have none of the properties read in this development. *)
Definition js_get (v : JsVal) (k : string) : Result JsVal :=
  match v with
  | JUndefined =>
      Throw (new_TypeError
        ("Cannot read properties of undefined (reading '" +:+ k +:+ "')"))
  | JNull =>
      Throw (new_TypeError
        ("Cannot read properties of null (reading '" +:+ k +:+ "')"))
  | JObj o => Ok (default JUndefined (o !! k))
  | _ => Ok JUndefined
  end.

(** [sub] is found at the very start of [s]. *)
Fixpoint starts_with (sub s : string) : bool :=
  match sub, s with
  | EmptyString, _ => true
  | String a sub', String b s' => if Ascii.eqb a b then starts_with sub' s' else false
  | String _ _, EmptyString => false
  end.

(** [String.prototype.includes]: [sub] is found at some position of [s]. *)
Fixpoint includes (s sub : string) : bool :=
  starts_with sub s ||
  match s with
  | EmptyString => false
  | String _ rest => includes rest sub
  end.

(** What [includes] decides: [s] is some text, then [sub], then some text. *)
Definition occurs_in (sub s : string) : Prop :=
  ∃ pre post, s = pre +:+ sub +:+ post.

(** [recv.includes(sub)] on a value: the string method on a string,
    [Array.prototype.includes] on an array; nothing else has the method. *)
Definition js_includes (recv_name : string) (recv : JsVal) (sub : string)
  : Result bool :=
  match recv with
  | JStr s => Ok (includes s sub)
  | JArr l =>
      Ok (existsb (λ x, match x with JStr t => String.eqb t sub | _ => false end) l)
  | JUndefined | JNull =>
      Throw (new_TypeError
        ("Cannot read properties of " +:+ js_toString recv
           +:+ " (reading 'includes')"))
  | _ => Throw (new_TypeError (recv_name +:+ ".includes is not a function"))
  end.

End Js.
Import Js.

(** ** [Launcher/SmartLaunchHandler]: the vendor tags *)

Inductive EMR : Type :=
  | EPIC | CERNER | ECW | ATHENA | ATHENAPRACTICE | SMART | NONE.

#[export] Instance EMR_eq_dec : EqDecision EMR.
Proof. solve_decision. Defined.

(** The run-time value of each member of the enumeration is declared in
    [SmartLaunchHandler]; only its rendering in a template literal matters
    here. *)
Class EmrValues := { EMR_value : EMR → string }.

(** ** The platform's [URL] constructor *)

(** [new URL(s)] parses [s] as an absolute URL and throws a [TypeError] when
    it is none.  The parser belongs to the platform: [URL_parse s] is the
    parsed URL, or [None] where the constructor throws. *)
Class UrlApi := {
  URL : Type;
  URL_parse : string → option URL;
}.

(** The one fact about the parser used below: without a base URL, a string
    with no [:] has no scheme and is refused. *)
Class UrlLaws (U : UrlApi) : Prop :=
  URL_parse_needs_scheme : ∀ s : string, ¬ occurs_in ":" s → URL_parse s = None.

Definition new_URL `{U : UrlApi} (s : string) : Result URL :=
  match URL_parse s with
  | Some u => Ok u
  | None => Throw (new_TypeError "Invalid URL")
  end.

(** ** The session handle and asynchronous computations *)

(** The session objects that carry a deferred identifier. *)
Inductive IdOwner : Type := Patient | Encounter | User.

(** [ObjectWithID]: [id] is [None] for a [null] or [undefined] identifier. *)
Record ObjectWithID : Type := {
  owner : IdOwner;
  id : option string;
}.

(** How a call that is to return a promise ends: with a promise that
    resolves, with a promise that rejects, or with an exception thrown by
    the call itself, before there is a promise. *)
Inductive Outcome (A : Type) : Type :=
  | Resolves (a : A)
  | Rejects (reason : Thrown)
  | Throws (e : Thrown).
Arguments Resolves {A} a.
Arguments Rejects {A} reason.
Arguments Throws {A} e.

(** The session handle of the [fhirclient] library, as far as the client core
    uses it: the server URL, the deferred identifiers, and the outcome of
    each call the core makes on it.  The core attaches handlers to the
    promise of [create] only, so the three ways in which that call ends are
    kept apart; the other calls are awaited as they are, where an exception
    of the call and a rejection of its promise come to the same. *)
Record SubClient : Type := {
  serverUrl : string;
  patient_id : option string;
  encounter_id : option string;
  user_id : option string;
  client_create : JsObj → JsObj → Outcome JsObj;
  client_request : JsObj → Result JsVal;
  user_read : Result JsObj;
  patient_read : Result JsObj;
  encounter_read : Result JsObj;
}.

Definition patient (c : SubClient) : ObjectWithID :=
  {| owner := Patient; id := patient_id c |}.
Definition encounter (c : SubClient) : ObjectWithID :=
  {| owner := Encounter; id := encounter_id c |}.
Definition user (c : SubClient) : ObjectWithID :=
  {| owner := User; id := user_id c |}.

(** What a computation does on the session and the console, in order. *)
Inductive Event : Type :=
  | ResolveId (owner : IdOwner) (id : option string)
  | CallCreate (resource options : JsObj)
  | CallRequest (options : JsObj)
  | CallRead (owner : IdOwner)
  | ConsoleLog (v : JsVal).

(** An [async] function body: given the time on the clock, the events it
    emits and how it settles. *)
Definition Async (A : Type) : Type := string → list Event * Result A.

#[export] Instance Async_ret : MRet Async := λ A a _, ([], Ok a).
#[export] Instance Async_bind : MBind Async := λ A B f m now,
  match m now with
  | (evs, Ok a) => let '(evs', r) := f a now in (evs ++ evs', r)
  | (evs, Throw e) => (evs, Throw e)
  end.

Definition emit (e : Event) : Async unit := λ _, ([e], Ok ()).
Definition throw {A : Type} (e : Thrown) : Async A := λ _, ([], Throw e).
Definition settle {A : Type} (r : Result A) : Async A := λ _, ([], r).

(** [new Date().toISOString()]. *)
Definition currentDateString : Async string := λ now, ([], Ok now).

(** [m.catch(handler)]. *)
Definition catch {A : Type} (m : Async A) (handler : Thrown → Async A) : Async A :=
  λ now,
    match m now with
    | (evs, Ok a) => (evs, Ok a)
    | (evs, Throw e) => let '(evs', r) := handler e now in (evs ++ evs', r)
    end.

(** [await objectWithId.id]. *)
Definition await_id (o : ObjectWithID) : Async (option string) :=
  _ ← emit (ResolveId (owner o) (id o)); mret (id o).

(** The calls on the session. *)
(** The call [fhirClientDefault.create(resource, options)]: it throws, or
    it returns a promise, given here by the way the promise settles. *)
Definition session_create (c : SubClient) (resource options : JsObj)
  : Async (Result JsObj) :=
  _ ← emit (CallCreate resource options);
  match client_create c resource options with
  | Resolves answer => mret (Ok answer)
  | Rejects reason => mret (Throw reason)
  | Throws e => throw e
  end.
Definition session_request (c : SubClient) (options : JsObj) : Async JsVal :=
  _ ← emit (CallRequest options); settle (client_request c options).
Definition session_read (c : SubClient) (o : IdOwner) : Async JsObj :=
  _ ← emit (CallRead o);
  settle (match o with
          | Patient => patient_read c
          | Encounter => encounter_read c
          | User => user_read c
          end).

(** An identifier for which [!id] holds. *)
Definition id_missing (v : option string) : bool :=
  match v with
  | None => true
  | Some s => String.eqb s ""
  end.

(** ** [Resource/transformer]: the interface *)

(** [Transformer.toFhirClientType] and [Transformer.toR4FhirType], the two
    conversions [BaseClient] calls.  [BaseClient] is stated over any pair of
    them. *)
Class TransformerApi := {
  toFhirClientType : JsObj → Result JsObj;
  toR4FhirType : JsObj → Result JsObj;
}.

(** ** [Client/BaseClient.ts] *)

Module BaseClient.

Record EMR_ENDPOINTS `{U : UrlApi} : Type := {
  token : URL;
  r4 : URL;
  auth : URL;
}.

(** The static [TOKEN_ENDPOINT], [R4_ENDPOINT] and [AUTHORIZE_ENDPOINT] of a
    client class, each [string | undefined]. *)
Record Statics : Type := {
  TOKEN_ENDPOINT : option string;
  R4_ENDPOINT : option string;
  AUTHORIZE_ENDPOINT : option string;
}.

Definition constructEndpoints `{U : UrlApi}
    (tokenEP r4EP authorizeEP : option string) : Result EMR_ENDPOINTS :=
  match tokenEP with
  | None => Throw (new_Error "Token Endpoint not defined")
  | Some tokenEP =>
  match r4EP with
  | None => Throw (new_Error "R4 Endpoint not defined")
  | Some r4EP =>
  match authorizeEP with
  | None => Throw (new_Error "Auth Endpoint not defined")
  | Some authorizeEP =>
      token ← new_URL tokenEP;
      r4 ← new_URL r4EP;
      auth ← new_URL authorizeEP;
      Ok {| token := token; r4 := r4; auth := auth |}
  end end end.

Definition getIDfromObject (objectWithId : ObjectWithID) : Async string :=
  id ← await_id objectWithId;
  match id with
  | Some id => if String.eqb id "" then throw (new_Error "id not found") else mret id
  | None => throw (new_Error "id not found")
  end.

Definition createPatientSubject (c : SubClient) : Async JsObj :=
  patientID ← getIDfromObject (patient c);
  mret ({[ "subject" := JObj {[ "reference" := JStr ("Patient/" +:+ patientID) ]} ]} : JsObj).

Definition createEncounterReference (c : SubClient) : Async JsVal :=
  encounterID ← getIDfromObject (encounter c);
  mret (JObj {[ "reference" := JStr ("Encounter/" +:+ encounterID) ]}).

Definition createEncounterReferenceArray (c : SubClient) : Async JsVal :=
  reference ← createEncounterReference c;
  mret (JArr [reference]).

Definition createPeriod (start : string) : JsVal :=
  JObj {[ "start" := JStr start; "end" := JStr start ]}.

Definition createContext (c : SubClient) : Async JsObj :=
  encounter ← createEncounterReferenceArray c;
  currentDateString ← currentDateString;
  let period := createPeriod currentDateString in
  mret ({[ "context" := JObj {[ "encounter" := encounter; "period" := period ]} ]} : JsObj).

Definition createReferenceArrayAuthor (c : SubClient) : Async JsObj :=
  userID ← getIDfromObject (user c);
  mret ({[ "author" :=
             JArr [JObj {[ "reference" := JStr ("Practitioner/" +:+ userID) ]}] ]} : JsObj).

Definition hydrateResource (c : SubClient) (resource : JsObj) : Async JsObj :=
  subject ← (if js_in "subject" resource then mret ∅ else createPatientSubject c);
  context ← (if js_in "encounter" resource then mret ∅ else createContext c);
  mret (spread (spread resource subject) context).

(** [create].  [this_hydrateResource] is [this.hydrateResource], which a
    subclass may override; [additionalHeaders] is [None] when the caller
    passes none.  The handlers of [.then] and [.catch] are attached to the
    promise that the call on the session returns: an exception of the call
    itself passes them by. *)
Definition create `{T : TransformerApi}
    (this_hydrateResource : JsObj → Async JsObj)
    (c : SubClient) (resource : JsObj) (additionalHeaders : option JsObj)
  : Async JsObj :=
  transformedResource ← settle (toFhirClientType resource);
  hydratedResource ← this_hydrateResource transformedResource;
  promise ← session_create c hydratedResource
              (spread ∅ (default ∅ additionalHeaders));
  resultResource ←
    catch
      (resource ← settle promise;
       if negb (js_truthy (default JUndefined (resource !! "resourceType"))) then
         _ ← emit (ConsoleLog (JObj resource));
         throw (new_Error ("Resource " +:+ js_toString (JObj resource)
                             +:+ ", must have a resource type."))
       else mret resource)
      (λ reason, throw (new_Error ("It failed with:" +:+ thrown_toString reason)));
  settle (toR4FhirType resultResource).

Definition requestResource (c : SubClient) (resourceID : string)
    (requestOptions : option JsObj) : Async JsVal :=
  session_request c
    (spread {[ "url" := JStr resourceID ]}
       (match requestOptions with
        | Some o => {[ "headers" := default JUndefined (o !! "headers") ]}
        | None => ∅
        end)).

Definition getUserRead (c : SubClient) : Async JsObj := session_read c User.

(** [v == word] for a string [word] that is no numeric literal: a string is
    compared as it is, an object or array through its [ToString]; a number or
    a boolean is compared with the number [word] converts to, which is
    [NaN]. *)
Definition js_loose_eq_word (v : JsVal) (word : string) : bool :=
  match v with
  | JStr s => String.eqb s word
  | JArr _ | JObj _ => String.eqb (js_toString v) word
  | JUndefined | JNull | JBool _ | JNum _ => false
  end.

Definition isPractitioner (user : JsObj) : bool :=
  js_loose_eq_word (default JUndefined (user !! "resourceType")) "Practitioner".

Definition getPractitionerRead `{T : TransformerApi} (c : SubClient) : Async JsObj :=
  user ← getUserRead c;
  if isPractitioner user then settle (toR4FhirType user)
  else throw (new_Error "User is Not a Practitioner").

Definition getPatientRead `{T : TransformerApi} (c : SubClient) : Async JsObj :=
  patient ← session_read c Patient;
  settle (toR4FhirType patient).

Definition getEncounterRead `{T : TransformerApi} (c : SubClient) : Async JsObj :=
  encounter ← session_read c Encounter;
  settle (toR4FhirType encounter).

End BaseClient.

(** ** [Client/CernerClient.ts] *)

Module CernerClient.

Definition AUTHORIZE_ENDPOINT : string :=
  "https://authorization.cerner.com/tenants/ec2458f2-1e24-41c8-b71b-0e701af7583d/protocols/oauth2/profiles/smart-v1/personas/provider/authorize".
Definition TOKEN_ENDPOINT : string :=
  "https://authorization.cerner.com/tenants/ec2458f2-1e24-41c8-b71b-0e701af7583d/protocols/oauth2/profiles/smart-v1/token".
Definition R4_ENDPOINT : string :=
  "https://fhir-ehr-code.cerner.com/r4/ec2458f2-1e24-41c8-b71b-0e701af7583d".

Definition getEndpoints `{U : UrlApi} : Result BaseClient.EMR_ENDPOINTS :=
  BaseClient.constructEndpoints
    (Some TOKEN_ENDPOINT) (Some R4_ENDPOINT) (Some AUTHORIZE_ENDPOINT).

Definition cernerRequestHeaders : JsObj :=
  {[ "Accept" := JStr "application/fhir+json" ]}.

(** [hydrateResource(fhirClientResource, r4Resource)]; [r4Resource] is [None]
    when the caller passes no second argument, and ["author" in undefined]
    throws. *)
Definition hydrateResource (c : SubClient)
    (fhirClientResource : JsObj) (r4Resource : option JsObj) : Async JsObj :=
  hydrated ← BaseClient.hydrateResource c fhirClientResource;
  author ←
    match r4Resource with
    | Some r4Resource =>
        if js_in "author" r4Resource then mret ∅
        else BaseClient.createReferenceArrayAuthor c
    | None =>
        throw (new_TypeError
          "Cannot use 'in' operator to search for 'author' in undefined")
    end;
  mret (spread hydrated author).

Definition requestResource (c : SubClient) (resourceID : string) : Async JsVal :=
  BaseClient.requestResource c resourceID
    (Some {[ "headers" := JObj cernerRequestHeaders ]}).

End CernerClient.

(** The implementations of [this.hydrateResource] that [BaseClient.create]
    can reach: the inherited one, and the override of [CernerClient] with
    whatever second argument it is given. *)
Inductive hydrate_method (c : SubClient) : (JsObj → Async JsObj) → Prop :=
  | inherited_method :
      hydrate_method c (BaseClient.hydrateResource c)
  | cerner_method (r4Resource : option JsObj) :
      hydrate_method c (λ resource, CernerClient.hydrateResource c resource r4Resource).

(** The identifier the session holds for each of its objects. *)
Definition session_id (c : SubClient) (o : IdOwner) : option string :=
  match o with
  | Patient => patient_id c
  | Encounter => encounter_id c
  | User => user_id c
  end.

(** A hydration only resolves identifiers of the session, and it fails with
    the error of [getIDfromObject] as soon as one of them is missing. *)
Definition hydrator (c : SubClient) (hook : JsObj → Async JsObj) : Prop :=
  ∀ resource now,
    (∀ e, e ∈ (hook resource now).1 → ∃ o, e = ResolveId o (session_id c o))
    ∧ (∀ o v, ResolveId o v ∈ (hook resource now).1 → id_missing v = true →
       (hook resource now).2 = Throw (new_Error "id not found")).

(** ** The vendor clients that are not among the sources *)

(** [EpicClient], [ECWClient], [AthenaPracticeClient] and [AthenaClient]
    each declare the three static endpoints of [BaseClient]; their values
    are taken as given. *)
Class VendorStatics := {
  EpicClient_statics : BaseClient.Statics;
  ECWClient_statics : BaseClient.Statics;
  AthenaPracticeClient_statics : BaseClient.Statics;
  AthenaClient_statics : BaseClient.Statics;
}.

(** Modelled from the spec: the static [getEndpoints] of [EpicClient],
    [ECWClient], [AthenaPracticeClient] and [AthenaClient], classes that are
    missing from the sources.  "Each concrete vendor variant exposes its own
    static token/resource/authorize URLs" and "Static [getEndpoints()]
    dispatches to §4.2 for that vendor": [constructEndpoints] over the three
    static endpoints of the class, as [CernerClient.getEndpoints] does. *)
Definition static_getEndpoints `{U : UrlApi} (statics : BaseClient.Statics)
  : Result BaseClient.EMR_ENDPOINTS :=
  BaseClient.constructEndpoints
    (BaseClient.TOKEN_ENDPOINT statics)
    (BaseClient.R4_ENDPOINT statics)
    (BaseClient.AUTHORIZE_ENDPOINT statics).

(** ** [Client/utils.ts] *)

Module Utils.

Definition getEndpointsForEmr `{U : UrlApi} `{V : EmrValues} `{S : VendorStatics}
    (emrType : EMR) : Result BaseClient.EMR_ENDPOINTS :=
  match emrType with
  | EPIC => static_getEndpoints EpicClient_statics
  | CERNER => CernerClient.getEndpoints
  | ECW => static_getEndpoints ECWClient_statics
  | ATHENAPRACTICE => static_getEndpoints AthenaPracticeClient_statics
  | ATHENA => static_getEndpoints AthenaClient_statics
  | SMART | NONE =>
      Throw (new_Error ("Endpoints not found for EMR type: " +:+ EMR_value emrType))
  end.

Definition EMR_MAPPING : list (string * EMR) :=
  [ ("cerner", CERNER);
    ("smarthealthit", SMART);
    ("epic", EPIC);
    ("ecw", ECW);
    ("platform.athenahealth.com", ATHENA);
    ("fhirapi.athenahealth.com", ATHENAPRACTICE) ].

(** [(input as SubClient).state.serverUrl]. *)
Definition state_serverUrl (input : JsObj) : Result JsVal :=
  js_get (default JUndefined (input !! "state")) "serverUrl".

(** [isClient]: [input.state.serverUrl !== undefined]. *)
Definition isClient (input : JsObj) : Result bool :=
  v ← state_serverUrl input;
  mret (match v with JUndefined => false | _ => true end).

(** The [for ... of EMR_MAPPING] loop: [Some emr] when an iteration returns,
    [None] when the loop runs to its end. *)
Fixpoint scan_mapping (serverUrl : JsVal) (mapping : list (string * EMR))
  : Result (option EMR) :=
  match mapping with
  | [] => Ok None
  | (substring, emr) :: rest =>
      hit ← js_includes "serverUrl" serverUrl substring;
      if hit : bool then Ok (Some emr) else scan_mapping serverUrl rest
  end.

Definition getEMRType (clientOrToken : JsObj) : Result EMR :=
  client ← isClient clientOrToken;
  if client : bool then
    serverUrl ← state_serverUrl clientOrToken;
    found ← scan_mapping serverUrl EMR_MAPPING;
    match found with
    | Some emr => Ok emr
    | None => Ok NONE
    end
  else if js_in "epic.eci" clientOrToken then Ok EPIC
  else Ok NONE.

End Utils.

(** ** [Client/ClientFactory.js] *)

Module ClientFactory.

Inductive Client : Type :=
  | EpicClient (fhirClientDefault : SubClient)
  | CernerClient (fhirClientDefault : SubClient).

Definition getEMRType (client : SubClient) : EMR :=
  if includes (serverUrl client) "cerner" then CERNER
  else if includes (serverUrl client) "smarthealthit" then SMART
  else if includes (serverUrl client) "epic" then EPIC
  else NONE.

(** The [switch (emrType)] of [createEMRClient]. *)
Definition clientFor (emrType : EMR) (defaultFhirClient : SubClient) : Client :=
  match emrType with
  | EPIC => EpicClient defaultFhirClient
  | CERNER => CernerClient defaultFhirClient
  | SMART | NONE | _ => EpicClient defaultFhirClient
  end.

(** [ready] is the outcome of [FHIR.oauth2.ready()]. *)
Definition createEMRClient (ready : Result SubClient) : Result Client :=
  defaultFhirClient ← ready;
  let emrType := getEMRType defaultFhirClient in
  mret (clientFor emrType defaultFhirClient).

End ClientFactory.

(** ** [Resource/transformer] *)

Module Transformer.

(** Modelled from the spec: [Resource/transformer.ts] is missing from the
    sources.  §4.3: [toSessionShape] (in the code,
    [Transformer.toFhirClientType]) is a "structural, field-preserving
    conversion", a "near-identity mapping with only shape adaptation (no
    semantic mutation of clinical data)", and it "fails with
    [MalformedResourceError] if the input lacks a [resourceType]
    discriminant".  The two shapes are modelled as the same object. *)
Definition toFhirClientType (resource : JsObj) : Result JsObj :=
  if js_in "resourceType" resource then Ok resource
  else Throw (ErrorObj "MalformedResourceError" "resource has no resourceType").

(** Modelled from the spec: [toCanonical] (in the code,
    [Transformer.toR4FhirType]), the conversion of §4.3 in the other
    direction, missing from the sources like the first. *)
Definition toR4FhirType (resource : JsObj) : Result JsObj :=
  if js_in "resourceType" resource then Ok resource
  else Throw (ErrorObj "MalformedResourceError" "resource has no resourceType").

Definition api : TransformerApi :=
  Build_TransformerApi toFhirClientType toR4FhirType.

End Transformer.

(** ** Sample inputs *)

Module Samples.

(** The data view of a session handle: [state.serverUrl] is all that
    [getEMRType] reads of it. *)
Definition session_object (serverUrl : string) : JsObj :=
  {[ "state" := JObj {[ "serverUrl" := JStr serverUrl ]} ]}.

Definition cerner_url : string := "https://fhir-ehr-code.cerner.com/r4/abc".
Definition smart_epic_url : string :=
  "https://launch.smarthealthit.org/v/r4/sim/epic/fhir".
Definition unknown_url : string := "https://fhir.example.org/r4".

(** Decoded bearer tokens: the claims of the token and nothing else. *)
Definition epic_token : JsObj :=
  {[ "client_id" := JStr "my-app"; "epic.eci" := JStr "urn:epic:apporchard.curprod" ]}.
Definition plain_token : JsObj :=
  {[ "client_id" := JStr "my-app" ]}.

(** A stand-in for the platform's URL parser: it accepts the strings that
    have a [:] and keeps their text. *)
Definition url_api : UrlApi :=
  {| URL := string;
     URL_parse := λ s, if includes s ":" then Some s else None |}.

Definition endpoints (token r4 auth : string) : @BaseClient.EMR_ENDPOINTS url_api :=
  @BaseClient.Build_EMR_ENDPOINTS url_api token r4 auth.

Definition emr_values : EmrValues :=
  {| EMR_value := λ emr,
       match emr with
       | EPIC => "epic" | CERNER => "cerner" | ECW => "ecw" | ATHENA => "athena"
       | ATHENAPRACTICE => "athenapractice" | SMART => "smart" | NONE => "none"
       end |}.

Definition statics_at (base : string) : BaseClient.Statics :=
  {| BaseClient.TOKEN_ENDPOINT := Some (base +:+ "/oauth2/token");
     BaseClient.R4_ENDPOINT := Some (base +:+ "/api/FHIR/R4");
     BaseClient.AUTHORIZE_ENDPOINT := Some (base +:+ "/oauth2/authorize") |}.

Definition vendor_statics : VendorStatics :=
  {| EpicClient_statics := statics_at "https://fhir.epic.example";
     ECWClient_statics := statics_at "https://fhir.ecw.example";
     AthenaPracticeClient_statics := statics_at "https://fhirapi.athena.example";
     AthenaClient_statics := statics_at "https://platform.athena.example" |}.

(** A session whose server stores what it is sent and answers with the
    resource and a fresh [id]. *)
Definition session (serverUrl : string) (patient encounter user : option string)
    (user_resourceType : string) : SubClient :=
  {| serverUrl := serverUrl;
     patient_id := patient;
     encounter_id := encounter;
     user_id := user;
     client_create := λ resource _, Resolves (<["id" := JStr "created-1"]> resource);
     client_request := λ _, Ok JNull;
     user_read := Ok {[ "resourceType" := JStr user_resourceType; "id" := JStr "u-1" ]};
     patient_read := Ok {[ "resourceType" := JStr "Patient"; "id" := JStr "p-1" ]};
     encounter_read := Ok {[ "resourceType" := JStr "Encounter"; "id" := JStr "e-1" ]} |}.


Definition smart_session : SubClient :=
  session smart_epic_url (Some "p-1") (Some "e-1") (Some "u-1") "Practitioner".
Definition unknown_session : SubClient :=
  session unknown_url (Some "p-1") (Some "e-1") (Some "u-1") "Practitioner".
(** A launch outside a patient chart: the session has no patient. *)
Definition no_patient_session : SubClient :=
  session cerner_url None (Some "e-1") (Some "u-1") "Practitioner".
(** A launch without a signed-in user. *)
Definition no_user_session : SubClient :=
  session cerner_url (Some "p-1") (Some "e-1") None "Practitioner".
(** A patient-facing launch: the user is the patient. *)
Definition patient_user_session : SubClient :=
  session cerner_url (Some "p-1") (Some "e-1") (Some "p-1") "Patient".
Definition unavailable : Thrown := new_Error "503 Service Unavailable".

Definition observation : JsObj :=
  {[ "resourceType" := JStr "Observation"; "status" := JStr "final" ]}.

Definition clock : string := "2024-01-01T00:00:00.000Z".

(** [observation] after hydration on a session with patient [p-1] and
    encounter [e-1], at [clock]. *)
Definition hydrated_observation : JsObj :=
  <[ "context" :=
       JObj {[ "encounter" := JArr [JObj {[ "reference" := JStr "Encounter/e-1" ]}];
               "period" := JObj {[ "start" := JStr clock; "end" := JStr clock ]} ]} ]>
    (<[ "subject" := JObj {[ "reference" := JStr "Patient/p-1" ]} ]> observation).

(** A document that brings its own [context] and names no [encounter]. *)
Definition document_with_context : JsObj :=
  {[ "resourceType" := JStr "DocumentReference";
     "context" := JObj {[ "encounter" := JArr [JObj {[ "reference" := JStr "Encounter/earlier" ]}] ]} ]}.

End Samples.

(** ** Further sample inputs *)

Module MoreSamples.

Definition port : SafeInteger := {| int_value := 8080; int_safe := I |}.

(** A session-shaped object whose [serverUrl] is a number. *)
Definition numeric_url_object : JsObj :=
  {[ "state" := JObj {[ "serverUrl" := JNum port ]} ]}.

(** A token that carries a [state] object of its own, and the Epic claim
    with no value. *)
Definition stateful_epic_token : JsObj :=
  {[ "state" := JObj {[ "clientId" := JStr "my-app" ]}; "epic.eci" := JUndefined ]}.
Definition stateful_plain_token : JsObj :=
  {[ "state" := JObj {[ "clientId" := JStr "my-app" ]}; "client_id" := JStr "my-app" ]}.

Definition ecw_url : string := "https://fhir4.ecwcloud.example/fhir/r4/JAFJCD".
Definition ecw_session : SubClient :=
  Samples.session ecw_url (Some "p-1") (Some "e-1") (Some "u-1") "Practitioner".
Definition cerner_session : SubClient :=
  Samples.session Samples.cerner_url (Some "p-1") (Some "e-1") (Some "u-1") "Practitioner".

(** An observation that already names its subject. *)
Definition observation_with_subject : JsObj :=
  <[ "subject" := JObj {[ "reference" := JStr "Patient/other" ]} ]> Samples.observation.

Definition later : string := "2024-01-01T00:05:00.000Z".




(** A session whose reads are refused. *)
Definition unreadable (c : SubClient) (reason : Thrown) : SubClient :=
  {| serverUrl := serverUrl c;
     patient_id := patient_id c;
     encounter_id := encounter_id c;
     user_id := user_id c;
     client_create := client_create c;
     client_request := client_request c;
     user_read := Throw reason;
     patient_read := Throw reason;
     encounter_read := Throw reason |}.

(** A session that echoes the options of a request. *)
Definition echoing (c : SubClient) : SubClient :=
  {| serverUrl := serverUrl c;
     patient_id := patient_id c;
     encounter_id := encounter_id c;
     user_id := user_id c;
     client_create := client_create c;
     client_request := λ options, Ok (JObj options);
     user_read := user_read c;
     patient_read := patient_read c;
     encounter_read := encounter_read c |}.

End MoreSamples.

(** * Properties *)

(** ** Substring search *)

Lemma string_app_cons (a : Ascii.ascii) (s t : string) :
  String a s +:+ t = String a (s +:+ t).
Proof. reflexivity. Qed.

Lemma string_app_nil (t : string) : "" +:+ t = t.
Proof. reflexivity. Qed.

Lemma starts_with_true_iff (p s : string) :
  starts_with p s = true ↔ ∃ post, s = p +:+ post.
Proof.
  revert s. induction p as [|a p IH]; intros s; simpl.
  - split; [intros _; by exists s | reflexivity].
  - destruct s as [|b s]; simpl.
    + split; [discriminate | intros [post H]; discriminate H].
    + setoid_rewrite string_app_cons.
      destruct (Ascii.eqb_spec a b) as [->|Hne].
      * rewrite IH. split; intros [post H]; exists post; congruence.
      * split; [discriminate | intros [post H]; congruence].
Qed.

Lemma includes_true_iff (s sub : string) :
  includes s sub = true ↔ occurs_in sub s.
Proof.
  induction s as [|a s IH]; simpl.
  - rewrite orb_false_r, starts_with_true_iff. split.
    + intros [post H]. by exists "", post.
    + intros [pre [post H]]. destruct pre; [by exists post | discriminate H].
  - rewrite orb_true_iff, starts_with_true_iff, IH. split.
    + intros [[post H] | [pre [post H]]].
      * by exists "", post.
      * exists (String a pre), post. rewrite string_app_cons. by rewrite H.
    + intros [pre [post H]]. destruct pre as [|b pre].
      * left. by exists post.
      * right. exists pre, post. rewrite string_app_cons in H. congruence.
Qed.

Lemma includes_false_iff (s sub : string) :
  includes s sub = false ↔ ¬ occurs_in sub s.
Proof.
  rewrite <- includes_true_iff. destruct (includes s sub); naive_solver.
Qed.

(** ** [getEMRType] on a session handle *)

Section ServerUrl.
Import Utils.

Lemma scan_mapping_no_match (url : string) (mapping : list (string * EMR)) :
  (∀ p, p ∈ mapping → ¬ occurs_in p.1 url) →
  scan_mapping (JStr url) mapping = Ok None.
Proof.
  induction mapping as [|[sub emr] rest IH]; intros Hno; [done|].
  simpl. assert (includes url sub = false) as ->.
  { apply includes_false_iff, (Hno (sub, emr)). by left. }
  simpl. apply IH. intros p Hp. apply Hno. by right.
Qed.

Lemma scan_mapping_first_match (url : string) before sub emr after :
  (∀ p, p ∈ before → ¬ occurs_in p.1 url) →
  occurs_in sub url →
  scan_mapping (JStr url) (before ++ (sub, emr) :: after) = Ok (Some emr).
Proof.
  induction before as [|[sub' emr'] before IH]; intros Hno Hhit; simpl.
  - apply includes_true_iff in Hhit. by rewrite Hhit.
  - assert (includes url sub' = false) as ->.
    { apply includes_false_iff, (Hno (sub', emr')). by left. }
    simpl. apply IH; [|done]. intros p Hp. apply Hno. by right.
Qed.

Lemma getEMRType_serverUrl (clientOrToken state : JsObj) (url : string) :
  clientOrToken !! "state" = Some (JObj state) →
  state !! "serverUrl" = Some (JStr url) →
  getEMRType clientOrToken =
    found ← scan_mapping (JStr url) EMR_MAPPING; Ok (default NONE found).
Proof.
  intros Hst Hurl. unfold getEMRType, isClient, state_serverUrl.
  rewrite Hst. simpl. rewrite Hurl. simpl.
  repeat (destruct (includes url _); [reflexivity|]); reflexivity.
Qed.

(** C1.  For a session handle, [getEMRType] tests the server URL against the
    table cerner, smarthealthit, epic, ecw, platform.athenahealth.com,
    fhirapi.athenahealth.com in this order: it returns the tag of the first
    entry whose substring occurs in the URL, and [NONE] when none does. *)
Theorem getEMRType_serverUrl_first_match
    (clientOrToken state : JsObj) (url : string) :
  clientOrToken !! "state" = Some (JObj state) →
  state !! "serverUrl" = Some (JStr url) →
  EMR_MAPPING =
    [ ("cerner", CERNER); ("smarthealthit", SMART); ("epic", EPIC);
      ("ecw", ECW); ("platform.athenahealth.com", ATHENA);
      ("fhirapi.athenahealth.com", ATHENAPRACTICE) ]
  ∧ (∀ before substring emr after,
       EMR_MAPPING = before ++ (substring, emr) :: after →
       occurs_in substring url →
       (∀ p, p ∈ before → ¬ occurs_in p.1 url) →
       getEMRType clientOrToken = Ok emr)
  ∧ ((∀ p, p ∈ EMR_MAPPING → ¬ occurs_in p.1 url) →
     getEMRType clientOrToken = Ok NONE).
Proof.
  intros Hst Hurl. split; [reflexivity|].
  rewrite (getEMRType_serverUrl _ _ _ Hst Hurl). split.
  - intros before sub emr after -> Hhit Hno.
    by rewrite scan_mapping_first_match.
  - intros Hno. by rewrite scan_mapping_no_match.
Qed.

End ServerUrl.

(** The URL of the SMART sandbox simulating Epic names two vendors; the
    earlier table entry wins.  An unrecognised URL gives [NONE]. *)
Lemma getEMRType_serverUrl_first_match_witness :
  Utils.getEMRType (Samples.session_object Samples.smart_epic_url) = Ok SMART
  ∧ Utils.getEMRType (Samples.session_object Samples.unknown_url) = Ok NONE.
Proof.
  split.
  - refine (proj1 (proj2 (getEMRType_serverUrl_first_match
      (Samples.session_object Samples.smart_epic_url) _ Samples.smart_epic_url
      eq_refl eq_refl)) [("cerner", CERNER)] "smarthealthit" SMART _ eq_refl _ _).
    + by exists "https://launch.", ".org/v/r4/sim/epic/fhir".
    + intros p Hp. apply includes_false_iff.
      apply list_elem_of_singleton in Hp as ->. reflexivity.
  - refine (proj2 (proj2 (getEMRType_serverUrl_first_match
      (Samples.session_object Samples.unknown_url) _ Samples.unknown_url
      eq_refl eq_refl)) _).
    intros p Hp. apply includes_false_iff.
    repeat (apply elem_of_cons in Hp as [->|Hp]; [reflexivity|]).
    by apply elem_of_nil in Hp.
Defined.

(** ** [getEMRType] on a token *)

Lemma getEMRType_without_state (token : JsObj) :
  token !! "state" = None →
  Utils.getEMRType token =
    Throw (new_TypeError "Cannot read properties of undefined (reading 'serverUrl')").
Proof.
  intros Hst. unfold Utils.getEMRType, Utils.isClient, Utils.state_serverUrl.
  by rewrite Hst.
Qed.

(** With a [state] object that has no [serverUrl], the token branch runs. *)
Lemma getEMRType_state_without_serverUrl (token state : JsObj) :
  token !! "state" = Some (JObj state) →
  state !! "serverUrl" = None →
  Utils.getEMRType token = Ok (if js_in "epic.eci" token then EPIC else NONE).
Proof.
  intros Hst Hurl. unfold Utils.getEMRType, Utils.isClient, Utils.state_serverUrl.
  rewrite Hst. simpl. rewrite Hurl. simpl. by destruct (js_in _ _).
Qed.

(** C6.  A decoded token has no [state] property, and [isClient] reads
    [state.serverUrl] of it: [getEMRType] throws a [TypeError] on a token,
    with or without the [epic.eci] claim, where [EPIC] and [NONE] are
    expected. *)
Theorem getEMRType_token_throws :
  Utils.getEMRType Samples.epic_token =
    Throw (new_TypeError "Cannot read properties of undefined (reading 'serverUrl')")
  ∧ Utils.getEMRType Samples.plain_token =
    Throw (new_TypeError "Cannot read properties of undefined (reading 'serverUrl')").
Proof. split; by apply getEMRType_without_state. Qed.

(** ** [ClientFactory.createEMRClient] *)

(** C10.  Every tag other than [CERNER] and [EPIC] is dispatched to an
    [EpicClient] on the same session, and so [createEMRClient] answers with
    an [EpicClient] for a session resolved to such a tag. *)
Theorem createEMRClient_defaults_to_Epic (c : SubClient) (emrType : EMR) :
  emrType ≠ CERNER →
  emrType ≠ EPIC →
  ClientFactory.clientFor emrType c = ClientFactory.EpicClient c
  ∧ (ClientFactory.getEMRType c = emrType →
     ClientFactory.createEMRClient (Ok c) = Ok (ClientFactory.EpicClient c)).
Proof.
  intros Hc He. split.
  - by destruct emrType.
  - intros Hty. unfold ClientFactory.createEMRClient. simpl. rewrite Hty.
    by destruct emrType.
Qed.

Lemma createEMRClient_defaults_to_Epic_witness :
  ClientFactory.createEMRClient (Ok Samples.smart_session)
  = Ok (ClientFactory.EpicClient Samples.smart_session)
  ∧ ClientFactory.createEMRClient (Ok Samples.unknown_session)
  = Ok (ClientFactory.EpicClient Samples.unknown_session).
Proof.
  split.
  - apply (createEMRClient_defaults_to_Epic _ SMART); [discriminate | discriminate | reflexivity].
  - apply (createEMRClient_defaults_to_Epic _ NONE); [discriminate | discriminate | reflexivity].
Defined.

(** ** Endpoints *)

(** The stand-in parser of the examples obeys the law of the URL parser. *)
#[export] Instance sample_url_laws : UrlLaws Samples.url_api.
Proof.
  intros s Hs. simpl. apply includes_false_iff in Hs. by rewrite Hs.
Qed.

Section Endpoints.
Context `{U : UrlApi}.
Import BaseClient.

Lemma new_URL_parsed (s : string) (u : URL) :
  URL_parse s = Some u → new_URL s = Ok u.
Proof. intros Hs. unfold new_URL. by rewrite Hs. Qed.

Lemma new_URL_refused (s : string) :
  URL_parse s = None → new_URL s = Throw (new_TypeError "Invalid URL").
Proof. intros Hs. unfold new_URL. by rewrite Hs. Qed.

(** A defined endpoint that has no scheme makes [constructEndpoints] throw,
    whatever the platform. *)
Lemma constructEndpoints_without_scheme `{!UrlLaws U}
    (tokenEP r4EP authorizeEP : string) :
  ¬ occurs_in ":" tokenEP →
  constructEndpoints (Some tokenEP) (Some r4EP) (Some authorizeEP)
  = Throw (new_TypeError "Invalid URL").
Proof.
  intros Hs. unfold constructEndpoints.
  by rewrite (new_URL_refused _ (URL_parse_needs_scheme _ Hs)).
Qed.

(** C8, as amended.  [constructEndpoints] throws the error naming the first
    undefined endpoint, in the order token, R4, auth.  With the three
    defined, it returns the triple of the URLs parsed from them when each is
    an absolute URL, and the [TypeError] of the URL constructor otherwise. *)
Theorem constructEndpoints_spec (tokenEP r4EP authorizeEP : option string) :
  (tokenEP = None →
   constructEndpoints tokenEP r4EP authorizeEP
   = Throw (new_Error "Token Endpoint not defined"))
  ∧ (is_Some tokenEP → r4EP = None →
     constructEndpoints tokenEP r4EP authorizeEP
     = Throw (new_Error "R4 Endpoint not defined"))
  ∧ (is_Some tokenEP → is_Some r4EP → authorizeEP = None →
     constructEndpoints tokenEP r4EP authorizeEP
     = Throw (new_Error "Auth Endpoint not defined"))
  ∧ (∀ t r a, tokenEP = Some t → r4EP = Some r → authorizeEP = Some a →
     match URL_parse t, URL_parse r, URL_parse a with
     | Some token, Some r4, Some auth =>
         constructEndpoints tokenEP r4EP authorizeEP
         = Ok {| token := token; r4 := r4; auth := auth |}
     | _, _, _ =>
         constructEndpoints tokenEP r4EP authorizeEP
         = Throw (new_TypeError "Invalid URL")
     end).
Proof.
  repeat split.
  - by intros ->.
  - by intros [t ->] ->.
  - by intros [t ->] [r ->] ->.
  - intros t r a -> -> ->. unfold constructEndpoints, new_URL.
    by destruct (URL_parse t), (URL_parse r), (URL_parse a).
Qed.

(** C4.  [getEndpointsForEmr] throws for [SMART] and for [NONE]; for [EPIC]
    it returns the one triple parsed from the three static endpoints of
    [EpicClient]. *)
Theorem getEndpointsForEmr_spec `{V : EmrValues} `{S : VendorStatics} :
  Utils.getEndpointsForEmr SMART
  = Throw (new_Error ("Endpoints not found for EMR type: " +:+ EMR_value SMART))
  ∧ Utils.getEndpointsForEmr NONE
  = Throw (new_Error ("Endpoints not found for EMR type: " +:+ EMR_value NONE))
  ∧ (∀ t r a token r4 auth,
       EpicClient_statics
       = {| TOKEN_ENDPOINT := Some t; R4_ENDPOINT := Some r;
            AUTHORIZE_ENDPOINT := Some a |} →
       URL_parse t = Some token → URL_parse r = Some r4 → URL_parse a = Some auth →
       Utils.getEndpointsForEmr EPIC
       = Ok {| token := token; r4 := r4; auth := auth |}).
Proof.
  repeat split.
  intros t r a token r4 auth Hst Ht Hr Ha.
  unfold Utils.getEndpointsForEmr, static_getEndpoints. rewrite Hst. simpl.
  by rewrite (new_URL_parsed _ _ Ht), (new_URL_parsed _ _ Hr), (new_URL_parsed _ _ Ha).
Qed.

End Endpoints.

(** Relative paths are defined strings and no URLs: [constructEndpoints]
    throws on them. *)
Lemma constructEndpoints_relative_paths :
  BaseClient.constructEndpoints (U := Samples.url_api)
    (Some "/oauth2/token") (Some "/api/FHIR/R4") (Some "/oauth2/authorize")
  = Throw (new_TypeError "Invalid URL").
Proof.
  apply constructEndpoints_without_scheme.
  by apply includes_false_iff.
Qed.

Lemma constructEndpoints_spec_witness :
  BaseClient.constructEndpoints (U := Samples.url_api)
    None (Some CernerClient.R4_ENDPOINT) None
  = Throw (new_Error "Token Endpoint not defined")
  ∧ BaseClient.constructEndpoints (U := Samples.url_api)
      (Some CernerClient.TOKEN_ENDPOINT) (Some CernerClient.R4_ENDPOINT) None
  = Throw (new_Error "Auth Endpoint not defined")
  ∧ CernerClient.getEndpoints (U := Samples.url_api)
  = Ok (Samples.endpoints CernerClient.TOKEN_ENDPOINT CernerClient.R4_ENDPOINT
          CernerClient.AUTHORIZE_ENDPOINT).
Proof.
  split; [|split].
  - by apply (constructEndpoints_spec (U := Samples.url_api)).
  - by apply (constructEndpoints_spec (U := Samples.url_api)).
  - exact (proj2 (proj2 (proj2 (constructEndpoints_spec (U := Samples.url_api)
      (Some CernerClient.TOKEN_ENDPOINT) (Some CernerClient.R4_ENDPOINT)
      (Some CernerClient.AUTHORIZE_ENDPOINT)))) _ _ _ eq_refl eq_refl eq_refl).
Defined.

Lemma getEndpointsForEmr_spec_witness :
  Utils.getEndpointsForEmr (U := Samples.url_api) (V := Samples.emr_values)
    (S := Samples.vendor_statics) EPIC
  = Ok (Samples.endpoints "https://fhir.epic.example/oauth2/token"
          "https://fhir.epic.example/api/FHIR/R4"
          "https://fhir.epic.example/oauth2/authorize").
Proof.
  exact (proj2 (proj2 (getEndpointsForEmr_spec (U := Samples.url_api)
    (V := Samples.emr_values) (S := Samples.vendor_statics)))
    _ _ _ _ _ _ eq_refl eq_refl eq_refl eq_refl).
Defined.

(** ** The transformer *)

(** C5.  Converting a resource that has a [resourceType] to the session
    shape and back gives the resource. *)
Theorem transformer_round_trip (r : JsObj) :
  is_Some (r !! "resourceType") →
  Transformer.toFhirClientType r ≫= Transformer.toR4FhirType = Ok r.
Proof.
  intros [v Hv]. unfold Transformer.toFhirClientType, Transformer.toR4FhirType, js_in.
  rewrite Hv. simpl. by rewrite Hv.
Qed.

Lemma transformer_round_trip_witness :
  Transformer.toFhirClientType Samples.observation ≫= Transformer.toR4FhirType
  = Ok Samples.observation.
Proof. apply transformer_round_trip. by eexists. Defined.

(** ** Running asynchronous computations *)

Ltac run_async :=
  unfold mbind, Async_bind, mret, Async_ret, emit, throw, settle, catch; simpl.

Section Hydration.
Import BaseClient.

Lemma js_in_true (k : string) (o : JsObj) : js_in k o = true ↔ is_Some (o !! k).
Proof. unfold js_in. destruct (o !! k); split; (done || by intros [? ?] || eauto). Qed.

Lemma js_in_false (k : string) (o : JsObj) : js_in k o = false ↔ o !! k = None.
Proof. unfold js_in. by destruct (o !! k). Qed.

Lemma getIDfromObject_run (o : ObjectWithID) (now : string) :
  getIDfromObject o now =
    ([ResolveId (owner o) (id o)],
     if id_missing (id o) then Throw (new_Error "id not found")
     else Ok (default "" (id o))).
Proof.
  unfold getIDfromObject, await_id. run_async.
  destruct (id o) as [s|]; simpl; [|done]. by destruct (String.eqb s "").
Qed.

Lemma createPatientSubject_run (c : SubClient) (now : string) :
  createPatientSubject c now =
    ([ResolveId Patient (patient_id c)],
     if id_missing (patient_id c) then Throw (new_Error "id not found")
     else Ok {[ "subject" :=
                  JObj {[ "reference" := JStr ("Patient/" +:+ default "" (patient_id c)) ]} ]}).
Proof.
  unfold createPatientSubject. run_async. rewrite getIDfromObject_run. simpl.
  by destruct (id_missing _).
Qed.

Lemma createContext_run (c : SubClient) (now : string) :
  createContext c now =
    ([ResolveId Encounter (encounter_id c)],
     if id_missing (encounter_id c) then Throw (new_Error "id not found")
     else Ok {[ "context" :=
                  JObj {[ "encounter" :=
                            JArr [JObj {[ "reference" :=
                                     JStr ("Encounter/" +:+ default "" (encounter_id c)) ]}];
                          "period" := createPeriod now ]} ]}).
Proof.
  unfold createContext, createEncounterReferenceArray, createEncounterReference,
    currentDateString.
  run_async. rewrite getIDfromObject_run. simpl.
  by destruct (id_missing _).
Qed.

Lemma createReferenceArrayAuthor_run (c : SubClient) (now : string) :
  createReferenceArrayAuthor c now =
    ([ResolveId User (user_id c)],
     if id_missing (user_id c) then Throw (new_Error "id not found")
     else Ok {[ "author" :=
                  JArr [JObj {[ "reference" :=
                           JStr ("Practitioner/" +:+ default "" (user_id c)) ]}] ]}).
Proof.
  unfold createReferenceArrayAuthor. run_async. rewrite getIDfromObject_run. simpl.
  by destruct (id_missing _).
Qed.

Lemma spread_empty (o : JsObj) : spread o ∅ = o.
Proof. unfold spread. by rewrite (left_id_L ∅ (∪)). Qed.

Lemma spread_singleton (o : JsObj) (k : string) (v : JsVal) :
  spread o {[ k := v ]} = <[ k := v ]> o.
Proof. unfold spread. by rewrite insert_union_singleton_l. Qed.

End Hydration.

(** The case analysis of a hydration: which of [subject] and [encounter] the
    resource has, and which identifiers of the session are missing. *)
Ltac hydrate_cases c resource :=
  unfold CernerClient.hydrateResource, BaseClient.hydrateResource; run_async;
  destruct (js_in "subject" resource) eqn:?;
  rewrite ?createPatientSubject_run; simpl;
  [| destruct (id_missing (patient_id c)) eqn:?; simpl ];
  (destruct (js_in "encounter" resource) eqn:?;
   rewrite ?createContext_run; simpl;
   [| destruct (id_missing (encounter_id c)) eqn:?; simpl ]).

Ltac hydrator_events :=
  split;
  [ intros e He;
    repeat (apply elem_of_cons in He as [->|He]);
    try (by apply elem_of_nil in He);
    first [by exists Patient | by exists Encounter | by exists User]
  | intros o v He Hv;
    repeat (apply elem_of_cons in He as [He|He]);
    try (by apply elem_of_nil in He);
    try reflexivity;
    injection He as -> ->; congruence ].

Lemma hydrateResource_hydrator (c : SubClient) :
  hydrator c (BaseClient.hydrateResource c).
Proof. intros resource now. hydrate_cases c resource; hydrator_events. Qed.

Lemma cerner_hydrateResource_hydrator (c : SubClient) (r4 : option JsObj) :
  hydrator c (λ resource, CernerClient.hydrateResource c resource r4).
Proof.
  intros resource now. hydrate_cases c resource.
  all: destruct r4 as [r4|]; simpl;
    [ destruct (js_in "author" r4); simpl;
      rewrite ?createReferenceArrayAuthor_run; simpl;
      [| destruct (id_missing (user_id c)) eqn:?; simpl ] |].
  all: hydrator_events.
Qed.

Lemma hydrate_method_hydrator (c : SubClient) (hook : JsObj → Async JsObj) :
  hydrate_method c hook → hydrator c hook.
Proof.
  intros [|r4]; [apply hydrateResource_hydrator | apply cerner_hydrateResource_hydrator].
Qed.

(** ** [hydrateResource] *)

(** C2, as amended.  A resource that has [subject] and [encounter] is
    returned as it is, and the session is not consulted.  A resource that has
    neither gets [subject] and [context] (the encounter reference array and
    the period) set, a [context] it had being replaced, and nothing else
    added or changed.  In every case all fields other than [context] keep
    their value; [context] keeps its value when the resource has
    [encounter], and is the context of the session when it has none. *)
Theorem hydrateResource_frame (c : SubClient) (resource : JsObj) (now : string) :
  (is_Some (resource !! "subject") → is_Some (resource !! "encounter") →
   BaseClient.hydrateResource c resource now = ([], Ok resource))
  ∧ (∀ p e,
       resource !! "subject" = None → resource !! "encounter" = None →
       patient_id c = Some p → p ≠ "" → encounter_id c = Some e → e ≠ "" →
       (BaseClient.hydrateResource c resource now).2 =
         Ok (<[ "context" :=
                  JObj {[ "encounter" :=
                            JArr [JObj {[ "reference" := JStr ("Encounter/" +:+ e) ]}];
                          "period" :=
                            JObj {[ "start" := JStr now; "end" := JStr now ]} ]} ]>
               (<[ "subject" := JObj {[ "reference" := JStr ("Patient/" +:+ p) ]} ]>
                  resource)))
  ∧ (∀ hydrated,
       (BaseClient.hydrateResource c resource now).2 = Ok hydrated →
       (∀ k v, resource !! k = Some v → k ≠ "context" → hydrated !! k = Some v)
       ∧ (is_Some (resource !! "encounter") →
          hydrated !! "context" = resource !! "context")
       ∧ (resource !! "encounter" = None →
          hydrated !! "context" =
            Some (JObj {[ "encounter" :=
                            JArr [JObj {[ "reference" :=
                                     JStr ("Encounter/" +:+ default "" (encounter_id c)) ]}];
                          "period" :=
                            JObj {[ "start" := JStr now; "end" := JStr now ]} ]}))
       ∧ (∀ k, k ≠ "subject" → k ≠ "context" → hydrated !! k = resource !! k)).
Proof.
  split; [|split].
  - intros Hs He. apply js_in_true in Hs, He.
    unfold BaseClient.hydrateResource. run_async. rewrite Hs, He. simpl.
    by rewrite !spread_empty.
  - intros p e Hs He Hp Hpne Hen Hene. apply js_in_false in Hs, He.
    assert (id_missing (patient_id c) = false) as Hpm.
    { rewrite Hp. simpl. by apply String.eqb_neq. }
    assert (id_missing (encounter_id c) = false) as Hem.
    { rewrite Hen. simpl. by apply String.eqb_neq. }
    hydrate_cases c resource; try congruence.
    by rewrite !spread_singleton, Hp, Hen.
  - intros hydrated. hydrate_cases c resource; intros [= <-];
      rewrite ?spread_empty, ?spread_singleton.
    all: repeat match goal with
         | H : js_in _ _ = true |- _ => apply js_in_true in H
         | H : js_in _ _ = false |- _ => apply js_in_false in H
         end.
    all: (split; [|split; [|split]]);
      [ intros k v Hk Hne;
        rewrite ?lookup_insert_ne;
        first [done | congruence | intros <-; congruence]
      | intros [v Hv];
        first [congruence | by rewrite ?lookup_insert_ne]
      | intros Hnone;
        first [ by rewrite lookup_insert_eq
              | match goal with H : is_Some _ |- _ => destruct H; congruence end ]
      | intros k Hk1 Hk2; by rewrite ?lookup_insert_ne ].
Qed.

(** A document reference that brings its own [context] and has no
    [encounter] field loses that [context] to the one built from the
    session. *)
Lemma hydrateResource_replaces_context :
  ∃ hydrated,
    (BaseClient.hydrateResource Samples.smart_session
       Samples.document_with_context Samples.clock).2 = Ok hydrated
    ∧ is_Some (Samples.document_with_context !! "context")
    ∧ hydrated !! "context" ≠ Samples.document_with_context !! "context".
Proof.
  eexists. split; [reflexivity|]. split; [by eexists|].
  intros Heq. vm_compute in Heq.
  apply (f_equal (λ v, props (default JNull v) !! "period")) in Heq.
  vm_compute in Heq. discriminate Heq.
Qed.

Lemma hydrateResource_frame_witness :
  BaseClient.hydrateResource Samples.smart_session
    (<[ "subject" := JStr "s" ]> (<[ "encounter" := JStr "e" ]> Samples.observation))
    Samples.clock
  = ([], Ok (<[ "subject" := JStr "s" ]> (<[ "encounter" := JStr "e" ]> Samples.observation)))
  ∧ (BaseClient.hydrateResource Samples.smart_session Samples.observation
       Samples.clock).2
  = Ok Samples.hydrated_observation.
Proof.
  split.
  - apply hydrateResource_frame; by eexists.
  - by apply (proj1 (proj2 (hydrateResource_frame Samples.smart_session
      Samples.observation Samples.clock)) "p-1" "e-1").
Defined.

(** ** [create] *)

Section Create.
Context `{T : TransformerApi}.
Import BaseClient.

(** The case analysis of [create]: the transformer, the hydration, the
    session and the check of the answer. *)
Ltac create_cases hook c resource hdrs now :=
  unfold create, session_create; run_async;
  destruct (toFhirClientType resource) as [transformed|?]; simpl;
  [ destruct (hook transformed now) as [evs [hydrated|?]] eqn:Hhook; simpl;
    [ destruct (client_create c hydrated (spread ∅ (default ∅ hdrs)))
        as [answer|refusal|thrown] eqn:Hcreate; simpl;
      [ destruct (js_truthy (default JUndefined (answer !! "resourceType")));
        simpl | | ]
    | ]
  | ].



(** C7.  When an identifier that [create] asks the session for is missing,
    [create] throws the error of [getIDfromObject], and the session has not
    been sent a [create]. *)
Theorem create_missing_identifier_stops_before_network
    (c : SubClient) (hook : JsObj → Async JsObj)
    (resource : JsObj) (additionalHeaders : option JsObj) (now : string)
    (o : IdOwner) (v : option string) :
  hydrate_method c hook →
  ResolveId o v ∈ (create hook c resource additionalHeaders now).1 →
  id_missing v = true →
  v = session_id c o
  ∧ (create hook c resource additionalHeaders now).2
    = Throw (new_Error "id not found")
  ∧ ∀ r options,
      CallCreate r options ∉ (create hook c resource additionalHeaders now).1.
Proof.
  intros Hm. apply hydrate_method_hydrator in Hm.
  create_cases hook c resource additionalHeaders now; intros Hin Hv.
  all: try (by apply elem_of_nil in Hin).
  all: pose proof (Hm transformed now) as [Hev Hid]; rewrite Hhook in Hev, Hid;
    simpl in Hev, Hid.
  1-4: apply elem_of_app in Hin as [Hin|Hin];
    [ specialize (Hid _ _ Hin Hv); discriminate Hid
    | repeat (apply elem_of_cons in Hin as [Hin|Hin]);
      try (by apply elem_of_nil in Hin); discriminate Hin ].
  split; [|split].
  - destruct (Hev _ Hin) as [o' [= -> ->]]. reflexivity.
  - by rewrite (Hid _ _ Hin Hv).
  - intros r options Hc. destruct (Hev _ Hc) as [? [=]].
Qed.

(** [create] asks the session for the patient when the transformed resource
    has no [subject], and for the encounter when it has no [encounter] and
    the patient was found. *)
Lemma create_requests_patient
    (c : SubClient) (resource transformed : JsObj)
    (additionalHeaders : option JsObj) (now : string) :
  toFhirClientType resource = Ok transformed →
  transformed !! "subject" = None →
  ResolveId Patient (patient_id c)
    ∈ (create (hydrateResource c) c resource additionalHeaders now).1.
Proof.
  intros Ht Hs. apply js_in_false in Hs.
  unfold create, session_create. run_async. rewrite Ht. simpl.
  hydrate_cases c transformed; try congruence.
  all: repeat match goal with
       | |- context [client_create ?c ?r ?o] => destruct (client_create c r o); simpl
       | |- context [js_truthy ?v] => destruct (js_truthy v); simpl
       end.
  all: apply list_elem_of_here.
Qed.

Lemma create_requests_encounter
    (c : SubClient) (resource transformed : JsObj)
    (additionalHeaders : option JsObj) (now : string) :
  toFhirClientType resource = Ok transformed →
  transformed !! "encounter" = None →
  is_Some (transformed !! "subject") ∨ id_missing (patient_id c) = false →
  ResolveId Encounter (encounter_id c)
    ∈ (create (hydrateResource c) c resource additionalHeaders now).1.
Proof.
  intros Ht He Hs. apply js_in_false in He.
  unfold create, session_create. run_async. rewrite Ht. simpl.
  hydrate_cases c transformed; try congruence.
  all: try (destruct Hs as [Hs|Hs]; [apply js_in_true in Hs|]; congruence).
  all: repeat match goal with
       | |- context [client_create ?c ?r ?o] => destruct (client_create c r o); simpl
       | |- context [js_truthy ?v] => destruct (js_truthy v); simpl
       end.
  all: first [ apply list_elem_of_here
             | apply list_elem_of_further, list_elem_of_here ].
Qed.

(** C9.  [getPractitionerRead] throws when the user resource of the session
    is of another type than ["Practitioner"], and otherwise returns the
    user resource converted by the transformer. *)
Theorem getPractitionerRead_checks_resourceType
    (c : SubClient) (user : JsObj) (resourceType : string) (now : string) :
  user_read c = Ok user →
  user !! "resourceType" = Some (JStr resourceType) →
  (resourceType ≠ "Practitioner" →
   getPractitionerRead c now
   = ([CallRead User], Throw (new_Error "User is Not a Practitioner")))
  ∧ (resourceType = "Practitioner" →
     getPractitionerRead c now = ([CallRead User], toR4FhirType user)).
Proof.
  intros Hread Hty.
  unfold getPractitionerRead, getUserRead, session_read, isPractitioner.
  run_async. rewrite Hread. simpl. rewrite Hty. simpl. split.
  - intros Hne. apply String.eqb_neq in Hne. by rewrite Hne.
  - intros ->. by rewrite String.eqb_refl.
Qed.

End Create.



Lemma no_patient_create_trace :
  (BaseClient.create (T := Transformer.api)
     (BaseClient.hydrateResource Samples.no_patient_session)
     Samples.no_patient_session Samples.observation None Samples.clock).1
  = [ResolveId Patient None].
Proof. vm_compute. reflexivity. Qed.

Lemma no_user_create_trace :
  (BaseClient.create (T := Transformer.api)
     (λ resource, CernerClient.hydrateResource Samples.no_user_session resource
                    (Some Samples.observation))
     Samples.no_user_session Samples.observation None Samples.clock).1
  = [ResolveId Patient (Some "p-1"); ResolveId Encounter (Some "e-1");
     ResolveId User None].
Proof. vm_compute. reflexivity. Qed.

(** A session without a patient, and a resource without a [subject]; and
    the Cerner client on a session without a user, for a resource without
    an [author]. *)
Lemma create_missing_identifier_stops_before_network_witness :
  (BaseClient.create (T := Transformer.api)
     (BaseClient.hydrateResource Samples.no_patient_session)
     Samples.no_patient_session Samples.observation None Samples.clock).2
  = Throw (new_Error "id not found")
  ∧ (BaseClient.create (T := Transformer.api)
       (λ resource, CernerClient.hydrateResource Samples.no_user_session resource
                      (Some Samples.observation))
       Samples.no_user_session Samples.observation None Samples.clock).2
  = Throw (new_Error "id not found").
Proof.
  split.
  - refine (proj1 (proj2 (create_missing_identifier_stops_before_network
      (T := Transformer.api) Samples.no_patient_session _ Samples.observation None
      Samples.clock Patient None (inherited_method _) _ eq_refl))).
    rewrite no_patient_create_trace. apply list_elem_of_here.
  - refine (proj1 (proj2 (create_missing_identifier_stops_before_network
      (T := Transformer.api) Samples.no_user_session _ Samples.observation None
      Samples.clock User None (cerner_method _ _) _ eq_refl))).
    rewrite no_user_create_trace.
    do 2 apply list_elem_of_further. apply list_elem_of_here.
Defined.

(** A patient-facing launch: the user of the session is the patient. *)
Lemma getPractitionerRead_checks_resourceType_witness :
  BaseClient.getPractitionerRead (T := Transformer.api)
    Samples.patient_user_session Samples.clock
  = ([CallRead User], Throw (new_Error "User is Not a Practitioner"))
  ∧ BaseClient.getPractitionerRead (T := Transformer.api)
      Samples.smart_session Samples.clock
  = ([CallRead User],
     Ok {[ "resourceType" := JStr "Practitioner"; "id" := JStr "u-1" ]}).
Proof.
  split.
  - by apply (getPractitionerRead_checks_resourceType (T := Transformer.api)
      Samples.patient_user_session _ "Patient" Samples.clock eq_refl eq_refl).
  - by apply (getPractitionerRead_checks_resourceType (T := Transformer.api)
      Samples.smart_session _ "Practitioner" Samples.clock eq_refl eq_refl).
Defined.

(** * Further properties *)

(** ** Vendor resolution *)

Section Resolution.
Import Utils.

Lemma scan_mapping_array (l : list JsVal) (mapping : list (string * EMR)) :
  ∃ found, scan_mapping (JArr l) mapping = Ok found.
Proof.
  induction mapping as [|[sub emr] rest IH]; simpl; [by eexists|].
  destruct (existsb _ l); [by eexists | apply IH].
Qed.

Lemma scan_mapping_string (url : string) (mapping : list (string * EMR)) :
  ∃ found, scan_mapping (JStr url) mapping = Ok found.
Proof.
  induction mapping as [|[sub emr] rest IH]; simpl; [by eexists|].
  destruct (includes url sub); [by eexists | apply IH].
Qed.

(** X1.  On an object whose [state] is an object, [getEMRType] throws
    exactly when [serverUrl] is [null], a boolean, a number or an object: a
    string or an array is searched, and a missing or [undefined] one sends
    the input to the token branch. *)
Theorem getEMRType_throws_iff (clientOrToken state : JsObj) :
  clientOrToken !! "state" = Some (JObj state) →
  (∃ e, getEMRType clientOrToken = Throw e)
  ↔ (∃ v, state !! "serverUrl" = Some v
          ∧ match v with
            | JNull | JBool _ | JNum _ | JObj _ => True
            | JUndefined | JStr _ | JArr _ => False
            end).
Proof.
  intros Hst. unfold getEMRType, isClient, state_serverUrl. rewrite Hst. simpl.
  destruct (state !! "serverUrl") as [v|] eqn:Hv; simpl.
  - destruct v as [| |b|n|url|l|o]; simpl.
    + split; [intros [e He]; by destruct (js_in _ _) | by intros [v [[= <-] []]]].
    + split; [by exists JNull | by eexists].
    + split; [by exists (JBool b) | by eexists].
    + split; [by exists (JNum n) | by eexists].
    + split; [|by intros [v [[= <-] []]]].
      intros [e He]. exfalso. revert He.
      repeat (destruct (includes url _); [discriminate|]). discriminate.
    + split; [|by intros [v [[= <-] []]]].
      intros [e He]. exfalso. revert He.
      repeat (destruct (existsb _ l); [discriminate|]). discriminate.
    + split; [by exists (JObj o) | by eexists].
  - split; [intros [e He]; by destruct (js_in _ _) | by intros [v [[=] _]]].
Qed.

(** X2.  An input whose [state] is an object without [serverUrl] is read as
    a token: it resolves to [EPIC] when it has the key [epic.eci], whatever
    the value under the key, and to [NONE] otherwise. *)
Theorem getEMRType_token_branch (token state : JsObj) :
  token !! "state" = Some (JObj state) →
  state !! "serverUrl" = None →
  (is_Some (token !! "epic.eci") → getEMRType token = Ok EPIC)
  ∧ (token !! "epic.eci" = None → getEMRType token = Ok NONE).
Proof.
  intros Hst Hurl. rewrite (getEMRType_state_without_serverUrl _ _ Hst Hurl).
  unfold js_in. split.
  - by intros [v ->].
  - by intros ->.
Qed.

(** X3.  The factory's own [getEMRType] agrees with the one of [utils] on
    every session, except that it knows three vendors only: where [utils]
    finds [ECW], [ATHENA] or [ATHENAPRACTICE], the factory finds [NONE]. *)
Theorem factory_getEMRType_agrees_with_utils
    (c : SubClient) (clientOrToken state : JsObj) (emr : EMR) :
  clientOrToken !! "state" = Some (JObj state) →
  state !! "serverUrl" = Some (JStr (serverUrl c)) →
  getEMRType clientOrToken = Ok emr →
  ClientFactory.getEMRType c
  = match emr with
    | ECW | ATHENA | ATHENAPRACTICE => NONE
    | CERNER | SMART | EPIC | NONE => emr
    end.
Proof.
  intros Hst Hurl. rewrite (getEMRType_serverUrl _ _ _ Hst Hurl).
  unfold ClientFactory.getEMRType. simpl.
  repeat (destruct (includes (serverUrl c) _); simpl; [by intros [= <-]|]).
  by intros [= <-].
Qed.

End Resolution.

(** X4.  [createEMRClient] builds a [CernerClient] exactly for a session
    whose server URL contains ["cerner"], and an [EpicClient] for any other
    session, always on the session that [ready] resolved to; when [ready]
    rejects, so does [createEMRClient], with the same reason. *)
Theorem createEMRClient_cerner_or_epic (c : SubClient) :
  (occurs_in "cerner" (serverUrl c) →
   ClientFactory.createEMRClient (Ok c) = Ok (ClientFactory.CernerClient c))
  ∧ (¬ occurs_in "cerner" (serverUrl c) →
     ClientFactory.createEMRClient (Ok c) = Ok (ClientFactory.EpicClient c))
  ∧ (∀ reason,
       ClientFactory.createEMRClient (Throw reason) = Throw reason).
Proof.
  unfold ClientFactory.createEMRClient, ClientFactory.getEMRType. simpl.
  split; [|split].
  - intros Hin. apply includes_true_iff in Hin. by rewrite Hin.
  - intros Hno. apply includes_false_iff in Hno. rewrite Hno.
    by repeat (destruct (includes _ _)).
  - done.
Qed.

Lemma getEMRType_throws_iff_witness :
  ∃ e, Utils.getEMRType MoreSamples.numeric_url_object = Throw e.
Proof.
  apply (getEMRType_throws_iff MoreSamples.numeric_url_object
           {[ "serverUrl" := JNum MoreSamples.port ]} eq_refl).
  by exists (JNum MoreSamples.port).
Defined.

Lemma getEMRType_token_branch_witness :
  Utils.getEMRType MoreSamples.stateful_epic_token = Ok EPIC
  ∧ Utils.getEMRType MoreSamples.stateful_plain_token = Ok NONE.
Proof.
  split.
  - apply (getEMRType_token_branch MoreSamples.stateful_epic_token
             {[ "clientId" := JStr "my-app" ]} eq_refl eq_refl).
    by eexists.
  - by apply (getEMRType_token_branch MoreSamples.stateful_plain_token
                {[ "clientId" := JStr "my-app" ]} eq_refl eq_refl).
Defined.

(** An eClinicalWorks session is [ECW] for [utils] and [NONE] for the
    factory. *)
Lemma factory_getEMRType_agrees_with_utils_witness :
  Utils.getEMRType (Samples.session_object MoreSamples.ecw_url) = Ok ECW
  ∧ ClientFactory.getEMRType MoreSamples.ecw_session = NONE.
Proof.
  assert (Utils.getEMRType (Samples.session_object MoreSamples.ecw_url) = Ok ECW)
    as Hutils by (vm_compute; reflexivity).
  split; [exact Hutils|].
  exact (factory_getEMRType_agrees_with_utils MoreSamples.ecw_session
           (Samples.session_object MoreSamples.ecw_url) _ ECW eq_refl eq_refl Hutils).
Defined.

Lemma createEMRClient_cerner_or_epic_witness :
  ClientFactory.createEMRClient (Ok MoreSamples.cerner_session)
  = Ok (ClientFactory.CernerClient MoreSamples.cerner_session)
  ∧ ClientFactory.createEMRClient (Ok MoreSamples.ecw_session)
  = Ok (ClientFactory.EpicClient MoreSamples.ecw_session).
Proof.
  split.
  - apply createEMRClient_cerner_or_epic.
    by exists "https://fhir-ehr-code.", ".com/r4/abc".
  - apply createEMRClient_cerner_or_epic.
    by apply includes_false_iff.
Defined.

(** ** More on hydration *)

Section MoreHydration.
Import BaseClient.

Lemma js_in_insert_eq (k : string) (v : JsVal) (o : JsObj) :
  js_in k (<[ k := v ]> o) = true.
Proof. unfold js_in. by rewrite lookup_insert_eq. Qed.

Lemma js_in_insert_ne (k k' : string) (v : JsVal) (o : JsObj) :
  k ≠ k' → js_in k' (<[ k := v ]> o) = js_in k' o.
Proof. intros Hne. unfold js_in. by rewrite lookup_insert_ne. Qed.

(** X5.  [hydrateResource] asks the session for the patient exactly when
    the resource has no [subject], and then for the encounter exactly when
    the resource has no [encounter] and the patient was not found missing;
    it asks for nothing else and makes no call on the server. *)
Theorem hydrateResource_trace (c : SubClient) (resource : JsObj) (now : string) :
  (hydrateResource c resource now).1
  = (if js_in "subject" resource then []
     else [ResolveId Patient (patient_id c)])
    ++ (if js_in "encounter" resource then []
        else if negb (js_in "subject" resource) && id_missing (patient_id c) then []
        else [ResolveId Encounter (encounter_id c)]).
Proof. hydrate_cases c resource; reflexivity. Qed.

(** X6.  Hydrating a hydrated resource never asks for the patient again.
    When the resource came with an [encounter] the second hydration changes
    nothing and asks nothing; otherwise it asks for the encounter again and
    gives what hydrating the original resource at the later time gives: the
    [context] is rebuilt with the later period. *)
Theorem hydrateResource_again
    (c : SubClient) (resource hydrated : JsObj) (now later : string) :
  (hydrateResource c resource now).2 = Ok hydrated →
  (is_Some (resource !! "encounter") →
   hydrateResource c hydrated later = ([], Ok hydrated))
  ∧ (resource !! "encounter" = None →
     hydrateResource c hydrated later
     = ([ResolveId Encounter (encounter_id c)],
        (hydrateResource c resource later).2)).
Proof.
  hydrate_cases c resource; intros [= <-];
    rewrite ?spread_empty, ?spread_singleton.
  all: split; [intros Hsome | intros Hnone].
  all: repeat match goal with
       | H : js_in _ _ = true |- _ => apply js_in_true in H
       | H : js_in _ _ = false |- _ => apply js_in_false in H
       end.
  all: try congruence.
  all: try (match goal with H : is_Some _, H' : _ = None |- _ =>
              destruct H; congruence end).
  all: unfold hydrateResource; run_async.
  all: repeat first [rewrite js_in_insert_eq | rewrite js_in_insert_ne by done].
  all: repeat match goal with
       | H : is_Some (?o !! ?k) |- context [js_in ?k ?o] =>
           rewrite (proj2 (js_in_true k o) H)
       | H : ?o !! ?k = None |- context [js_in ?k ?o] =>
           rewrite (proj2 (js_in_false k o) H)
       end; simpl.
  all: rewrite ?createPatientSubject_run, ?createContext_run; simpl.
  all: repeat match goal with
       | H : id_missing _ = false |- _ => rewrite H
       end; simpl.
  all: rewrite ?spread_empty, ?spread_singleton, ?insert_insert_eq; try done.
Qed.

(** X7.  A resource that [hydrateResource] returns has a [subject], and it
    has an [encounter] or else a [context] made of an [encounter] and the
    period that starts and ends at the time of the call. *)
Theorem hydrateResource_result_has_context
    (c : SubClient) (resource hydrated : JsObj) (now : string) :
  (hydrateResource c resource now).2 = Ok hydrated →
  is_Some (hydrated !! "subject")
  ∧ (is_Some (hydrated !! "encounter")
     ∨ ∃ context,
         hydrated !! "context" = Some (JObj context)
         ∧ is_Some (context !! "encounter")
         ∧ context !! "period"
           = Some (JObj {[ "start" := JStr now; "end" := JStr now ]})).
Proof.
  hydrate_cases c resource; intros [= <-];
    rewrite ?spread_empty, ?spread_singleton.
  all: repeat match goal with
       | H : js_in _ _ = true |- _ => apply js_in_true in H
       | H : js_in _ _ = false |- _ => apply js_in_false in H
       end.
  all: split;
    [ rewrite ?lookup_insert_eq, ?lookup_insert_ne by done;
      rewrite ?lookup_insert_eq; by eauto
    | first
        [ left; rewrite ?lookup_insert_ne by done; done
        | right; eexists; rewrite lookup_insert_eq;
          split; [reflexivity|]; split; [by eexists | reflexivity] ] ].
Qed.

End MoreHydration.

Lemma hydrateResource_again_witness :
  BaseClient.hydrateResource Samples.smart_session Samples.hydrated_observation
    MoreSamples.later
  = ([ResolveId Encounter (Some "e-1")],
     (BaseClient.hydrateResource Samples.smart_session Samples.observation
        MoreSamples.later).2).
Proof.
  apply (hydrateResource_again Samples.smart_session Samples.observation
           Samples.hydrated_observation Samples.clock MoreSamples.later).
  - vm_compute. reflexivity.
  - reflexivity.
Defined.

Lemma hydrateResource_result_has_context_witness :
  is_Some (Samples.hydrated_observation !! "subject")
  ∧ (is_Some (Samples.hydrated_observation !! "encounter")
     ∨ ∃ context,
         Samples.hydrated_observation !! "context" = Some (JObj context)
         ∧ is_Some (context !! "encounter")
         ∧ context !! "period"
           = Some (JObj {[ "start" := JStr Samples.clock; "end" := JStr Samples.clock ]})).
Proof.
  apply (hydrateResource_result_has_context Samples.smart_session
           Samples.observation Samples.hydrated_observation Samples.clock).
  vm_compute. reflexivity.
Defined.

(** ** More on [create] *)

(** [{...headers}] is a copy of [headers]. *)
Lemma spread_copy (o : JsObj) : spread ∅ o = o.
Proof. unfold spread. by rewrite (right_id_L ∅ (∪)). Qed.

(** The steps of [create], for any hydration. *)
Ltac create_steps resource hook transformed now c hdrs :=
  unfold BaseClient.create, session_create; run_async; rewrite ?spread_copy;
  destruct (toFhirClientType resource) as [transformed|?] eqn:Htransform; simpl;
  [ destruct (hook transformed now) as [evs [hydrated|?]] eqn:Hhook; simpl;
    [ destruct (client_create c hydrated (default ∅ hdrs))
        as [answer|refusal|thrown] eqn:Hcreate; simpl;
      [ destruct (js_truthy (default JUndefined (answer !! "resourceType")))
          eqn:Htyped; simpl | | ]
    | ]
  | ].

Section MoreCreate.
Context `{T : TransformerApi}.
Import BaseClient.

(** X8.  When the transformer and the hydration succeed and the server
    answers with a resource that has a [resourceType], [create] has sent the
    server one [create], of the hydrated resource with the caller's headers
    object as the options ([{}] without one), and it returns the answer as
    the transformer converts it. *)
Theorem create_success
    (c : SubClient) (hook : JsObj → Async JsObj)
    (resource : JsObj) (additionalHeaders : option JsObj) (now : string)
    (transformed hydrated answer : JsObj) (asked : list Event) :
  toFhirClientType resource = Ok transformed →
  hook transformed now = (asked, Ok hydrated) →
  client_create c hydrated (default ∅ additionalHeaders) = Resolves answer →
  js_truthy (default JUndefined (answer !! "resourceType")) = true →
  create hook c resource additionalHeaders now
  = (asked ++ [CallCreate hydrated (default ∅ additionalHeaders)],
     toR4FhirType answer).
Proof.
  intros Ht Hh Hc Hty. unfold create, session_create. run_async.
  rewrite spread_copy, Ht. simpl. rewrite Hh. simpl. rewrite Hc. simpl.
  by rewrite Hty.
Qed.


(** X10.  The errors of the transformer are thrown as they are, without
    the ["It failed with:"] wrapping: one on the way in before the session
    is asked anything, one on the way out after the server has created the
    resource. *)
Theorem create_transformer_errors
    (c : SubClient) (hook : JsObj → Async JsObj)
    (resource : JsObj) (additionalHeaders : option JsObj) (now : string)
    (e : Thrown) :
  (toFhirClientType resource = Throw e →
   create hook c resource additionalHeaders now = ([], Throw e))
  ∧ (∀ transformed hydrated answer asked,
       toFhirClientType resource = Ok transformed →
       hook transformed now = (asked, Ok hydrated) →
       client_create c hydrated (default ∅ additionalHeaders) = Resolves answer →
       js_truthy (default JUndefined (answer !! "resourceType")) = true →
       toR4FhirType answer = Throw e →
       create hook c resource additionalHeaders now
       = (asked ++ [CallCreate hydrated (default ∅ additionalHeaders)], Throw e)).
Proof.
  split.
  - intros Ht. unfold create. run_async. by rewrite Ht.
  - intros transformed hydrated answer asked Ht Hh Hc Hty Hout.
    unfold create, session_create. run_async.
    rewrite spread_copy, Ht. simpl. rewrite Hh. simpl. rewrite Hc. simpl.
    rewrite Hty. simpl. by rewrite Hout.
Qed.

(** X11.  Whatever the outcome, [create] first resolves identifiers of the
    session and then sends the server at most one [create], with the
    caller's headers object as the options; the only thing that can follow
    is the console line for an answer without [resourceType].  It never
    makes a [request] or a [read]. *)
Theorem create_trace_shape
    (c : SubClient) (hook : JsObj → Async JsObj)
    (resource : JsObj) (additionalHeaders : option JsObj) (now : string) :
  hydrate_method c hook →
  ∃ asked sent,
    (create hook c resource additionalHeaders now).1 = asked ++ sent
    ∧ Forall (λ e, ∃ o, e = ResolveId o (session_id c o)) asked
    ∧ (sent = []
       ∨ ∃ hydrated,
           sent = [CallCreate hydrated (default ∅ additionalHeaders)]
           ∨ ∃ answer,
               sent = [CallCreate hydrated (default ∅ additionalHeaders);
                       ConsoleLog (JObj answer)]).
Proof.
  intros Hm. apply hydrate_method_hydrator in Hm.
  create_steps resource hook transformed now c additionalHeaders.
  all: try (pose proof (proj1 (Hm transformed now)) as Hids;
            rewrite Hhook in Hids; simpl in Hids;
            apply Forall_forall in Hids).
  - exists evs, [CallCreate hydrated (default ∅ additionalHeaders)].
    split; [done|]. split; [done|]. right. exists hydrated. by left.
  - exists evs, [CallCreate hydrated (default ∅ additionalHeaders);
                 ConsoleLog (JObj answer)].
    split; [done|]. split; [done|]. right. exists hydrated. right. by exists answer.
  - exists evs, [CallCreate hydrated (default ∅ additionalHeaders)].
    split; [done|]. split; [done|]. right. exists hydrated. by left.
  - exists evs, [CallCreate hydrated (default ∅ additionalHeaders)].
    split; [done|]. split; [done|]. right. exists hydrated. by left.
  - exists evs, []. split; [by rewrite app_nil_r|]. split; [done|]. by left.
  - exists [], []. split; [done|]. split; [constructor|]. by left.
Qed.

End MoreCreate.

Lemma create_success_witness :
  BaseClient.create (T := Transformer.api)
    (BaseClient.hydrateResource Samples.smart_session)
    Samples.smart_session Samples.observation None Samples.clock
  = ([ResolveId Patient (Some "p-1"); ResolveId Encounter (Some "e-1");
      CallCreate Samples.hydrated_observation ∅],
     Ok (<[ "id" := JStr "created-1" ]> Samples.hydrated_observation)).
Proof.
  etransitivity.
  - apply (create_success (T := Transformer.api) Samples.smart_session _
             Samples.observation None Samples.clock Samples.observation
             Samples.hydrated_observation
             (<[ "id" := JStr "created-1" ]> Samples.hydrated_observation)
             [ResolveId Patient (Some "p-1"); ResolveId Encounter (Some "e-1")]).
    all: vm_compute; reflexivity.
  - vm_compute. reflexivity.
Defined.


(** A resource without [resourceType] is refused by the transformer. *)
Lemma create_transformer_errors_witness :
  BaseClient.create (T := Transformer.api)
    (BaseClient.hydrateResource Samples.smart_session)
    Samples.smart_session {[ "status" := JStr "final" ]} None Samples.clock
  = ([], Throw (ErrorObj "MalformedResourceError" "resource has no resourceType")).
Proof.
  apply (create_transformer_errors (T := Transformer.api)).
  vm_compute. reflexivity.
Defined.

Lemma create_trace_shape_witness :
  ∃ asked sent,
    (BaseClient.create (T := Transformer.api)
       (BaseClient.hydrateResource Samples.smart_session)
       Samples.smart_session Samples.observation None Samples.clock).1
    = asked ++ sent
    ∧ Forall (λ e, ∃ o, e = ResolveId o (session_id Samples.smart_session o)) asked
    ∧ (sent = []
       ∨ ∃ hydrated,
           sent = [CallCreate hydrated (default ∅ None)]
           ∨ ∃ answer,
               sent = [CallCreate hydrated (default ∅ None); ConsoleLog (JObj answer)]).
Proof.
  exact (create_trace_shape (T := Transformer.api) Samples.smart_session _
           Samples.observation None Samples.clock (inherited_method _)).
Defined.

(** ** Requests and reads *)

Section RequestsAndReads.
Context `{T : TransformerApi}.
Import BaseClient.

(** X12.  [requestResource] sends the server one request.  Of the request
    options of the caller only [headers] is kept: the options sent are
    [url] and [headers], whatever else the caller set, and [url] alone when
    the caller gives no options.  The answer is returned as the server
    gives it. *)
Theorem requestResource_keeps_only_headers
    (c : SubClient) (resourceID : string) (now : string) :
  (∀ requestOptions : JsObj,
     requestResource c resourceID (Some requestOptions) now
     = ([CallRequest
           (<[ "headers" := default JUndefined (requestOptions !! "headers") ]>
              {[ "url" := JStr resourceID ]})],
        client_request c
          (<[ "headers" := default JUndefined (requestOptions !! "headers") ]>
             {[ "url" := JStr resourceID ]})))
  ∧ requestResource c resourceID None now
    = ([CallRequest {[ "url" := JStr resourceID ]}],
       client_request c {[ "url" := JStr resourceID ]})
  ∧ (∀ requestOptions requestOptions' : JsObj,
       requestOptions !! "headers" = requestOptions' !! "headers" →
       requestResource c resourceID (Some requestOptions) now
       = requestResource c resourceID (Some requestOptions') now).
Proof.
  unfold requestResource, session_request. run_async.
  split; [|split].
  - intros o. by rewrite spread_singleton.
  - by rewrite spread_empty.
  - intros o o' Heq. by rewrite Heq.
Qed.

(** X13.  [CernerClient.requestResource] sends one request whose options
    are the [url] and the headers [Accept: application/fhir+json]; the
    caller cannot add to them. *)
Theorem cerner_requestResource_headers
    (c : SubClient) (resourceID : string) (now : string) :
  ∃ options : JsObj,
    CernerClient.requestResource c resourceID now
    = ([CallRequest options], client_request c options)
    ∧ options !! "url" = Some (JStr resourceID)
    ∧ options !! "headers" = Some (JObj {[ "Accept" := JStr "application/fhir+json" ]})
    ∧ ∀ k, k ≠ "url" → k ≠ "headers" → options !! k = None.
Proof.
  eexists. split; [|split; [|split]].
  - unfold CernerClient.requestResource, requestResource, session_request.
    run_async. rewrite spread_singleton. reflexivity.
  - by rewrite lookup_insert_ne, lookup_singleton_eq.
  - by rewrite lookup_insert_eq.
  - intros k Hu Hh. by rewrite lookup_insert_ne, lookup_singleton_ne.
Qed.

(** X14.  [getPatientRead] and [getEncounterRead] make one read and return
    what was read as the transformer converts it, without looking at its
    [resourceType]; and when the server refuses a read, each of the three
    getters throws the reason of the server as it is. *)
Theorem reads_unchecked_and_unwrapped (c : SubClient) (now : string) :
  (∀ read, patient_read c = Ok read →
     getPatientRead c now = ([CallRead Patient], toR4FhirType read))
  ∧ (∀ read, encounter_read c = Ok read →
       getEncounterRead c now = ([CallRead Encounter], toR4FhirType read))
  ∧ (∀ reason, patient_read c = Throw reason →
       getPatientRead c now = ([CallRead Patient], Throw reason))
  ∧ (∀ reason, encounter_read c = Throw reason →
       getEncounterRead c now = ([CallRead Encounter], Throw reason))
  ∧ (∀ reason, user_read c = Throw reason →
       getPractitionerRead c now = ([CallRead User], Throw reason)).
Proof.
  unfold getPatientRead, getEncounterRead, getPractitionerRead, getUserRead,
    session_read.
  run_async. repeat split; intros ? H; by rewrite H.
Qed.

End RequestsAndReads.

(** ** The author hook of [CernerClient] *)

(** X15.  [CernerClient.hydrateResource] is the inherited hydration when
    the R4 resource has an [author].  When it has none, the user of the
    session is asked for after the inherited hydration has succeeded, and
    the [author] field of the hydrated resource is set to the reference to
    that practitioner, replacing an [author] that the other resource
    brought; a missing user throws the error of [getIDfromObject].  A
    failure of the inherited hydration is passed on and the user is not
    asked for. *)
Theorem cerner_hydrateResource_author
    (c : SubClient) (fhirClientResource r4Resource : JsObj) (now : string) :
  (is_Some (r4Resource !! "author") →
   CernerClient.hydrateResource c fhirClientResource (Some r4Resource) now
   = BaseClient.hydrateResource c fhirClientResource now)
  ∧ (r4Resource !! "author" = None →
     ∀ asked hydrated,
       BaseClient.hydrateResource c fhirClientResource now = (asked, Ok hydrated) →
       (∀ userID, user_id c = Some userID → userID ≠ "" →
          CernerClient.hydrateResource c fhirClientResource (Some r4Resource) now
          = (asked ++ [ResolveId User (Some userID)],
             Ok (<[ "author" :=
                      JArr [JObj {[ "reference" := JStr ("Practitioner/" +:+ userID) ]}] ]>
                   hydrated)))
       ∧ (id_missing (user_id c) = true →
          CernerClient.hydrateResource c fhirClientResource (Some r4Resource) now
          = (asked ++ [ResolveId User (user_id c)],
             Throw (new_Error "id not found"))))
  ∧ (∀ asked e,
       BaseClient.hydrateResource c fhirClientResource now = (asked, Throw e) →
       CernerClient.hydrateResource c fhirClientResource (Some r4Resource) now
       = (asked, Throw e)).
Proof.
  unfold CernerClient.hydrateResource. run_async.
  destruct (BaseClient.hydrateResource c fhirClientResource now)
    as [asked0 [hydrated0|e0]]; simpl.
  - split; [|split].
    + intros Ha. apply js_in_true in Ha. rewrite Ha. simpl.
      by rewrite app_nil_r, spread_empty.
    + intros Ha asked hydrated [= <- <-]. apply js_in_false in Ha. rewrite Ha.
      rewrite createReferenceArrayAuthor_run. split.
      * intros userID Hu Hne. rewrite Hu. simpl.
        apply String.eqb_neq in Hne. rewrite Hne. simpl.
        by rewrite spread_singleton.
      * intros Hmiss. by rewrite Hmiss.
    + intros asked e [=].
  - split; [|split].
    + done.
    + intros _ asked hydrated [=].
    + by intros asked e [= <- <-].
Qed.

Lemma requestResource_keeps_only_headers_witness :
  BaseClient.requestResource (MoreSamples.echoing Samples.smart_session)
    "Patient/p-1"
    (Some {[ "method" := JStr "DELETE";
             "headers" := JObj {[ "Prefer" := JStr "return=minimal" ]} ]})
    Samples.clock
  = BaseClient.requestResource (MoreSamples.echoing Samples.smart_session)
      "Patient/p-1"
      (Some {[ "headers" := JObj {[ "Prefer" := JStr "return=minimal" ]} ]})
      Samples.clock.
Proof.
  apply (requestResource_keeps_only_headers
           (MoreSamples.echoing Samples.smart_session) "Patient/p-1" Samples.clock).
  reflexivity.
Defined.

Lemma cerner_requestResource_headers_witness :
  ∃ options : JsObj,
    CernerClient.requestResource (MoreSamples.echoing MoreSamples.cerner_session)
      "Patient/p-1" Samples.clock
    = ([CallRequest options],
       client_request (MoreSamples.echoing MoreSamples.cerner_session) options)
    ∧ options !! "url" = Some (JStr "Patient/p-1")
    ∧ options !! "headers" = Some (JObj {[ "Accept" := JStr "application/fhir+json" ]})
    ∧ ∀ k, k ≠ "url" → k ≠ "headers" → options !! k = None.
Proof.
  exact (cerner_requestResource_headers
           (MoreSamples.echoing MoreSamples.cerner_session) "Patient/p-1" Samples.clock).
Defined.

Lemma reads_unchecked_and_unwrapped_witness :
  BaseClient.getPatientRead (T := Transformer.api)
    (MoreSamples.unreadable Samples.smart_session Samples.unavailable) Samples.clock
  = ([CallRead Patient], Throw Samples.unavailable)
  ∧ BaseClient.getPractitionerRead (T := Transformer.api)
      (MoreSamples.unreadable Samples.smart_session Samples.unavailable) Samples.clock
  = ([CallRead User], Throw Samples.unavailable).
Proof.
  split.
  - by apply (reads_unchecked_and_unwrapped (T := Transformer.api)).
  - by apply (reads_unchecked_and_unwrapped (T := Transformer.api)).
Defined.

Lemma cerner_hydrateResource_author_witness :
  CernerClient.hydrateResource MoreSamples.cerner_session Samples.observation
    (Some Samples.observation) Samples.clock
  = ([ResolveId Patient (Some "p-1"); ResolveId Encounter (Some "e-1");
      ResolveId User (Some "u-1")],
     Ok (<[ "author" := JArr [JObj {[ "reference" := JStr "Practitioner/u-1" ]}] ]>
           Samples.hydrated_observation)).
Proof.
  refine (proj1 (proj1 (proj2 (cerner_hydrateResource_author
    MoreSamples.cerner_session Samples.observation Samples.observation Samples.clock))
    eq_refl [ResolveId Patient (Some "p-1"); ResolveId Encounter (Some "e-1")]
    Samples.hydrated_observation _) "u-1" eq_refl _).
  - vm_compute. reflexivity.
  - discriminate.
Defined.

(** ** [create] of a resource that brings its own context *)

(** X16.  For a resource that has [subject] and [encounter] after the
    transformer, [create] with the inherited hydration asks the session for
    no identifier: all it does on the session is the one [create], of the
    transformed resource as it is.  Such a resource can be created on a
    session that has no patient and no encounter. *)
Theorem create_context_complete `{T : TransformerApi}
    (c : SubClient) (resource transformed : JsObj)
    (additionalHeaders : option JsObj) (now : string) :
  toFhirClientType resource = Ok transformed →
  is_Some (transformed !! "subject") →
  is_Some (transformed !! "encounter") →
  ∃ tail,
    (BaseClient.create (BaseClient.hydrateResource c) c resource
       additionalHeaders now).1
    = CallCreate transformed (default ∅ additionalHeaders) :: tail
    ∧ ∀ e, e ∈ tail → ∃ answer, e = ConsoleLog answer.
Proof.
  intros Ht Hs He. apply js_in_true in Hs, He.
  unfold BaseClient.create, session_create. run_async.
  rewrite spread_copy, Ht. simpl.
  unfold BaseClient.hydrateResource. run_async. rewrite Hs, He. simpl.
  rewrite !spread_empty.
  destruct (client_create c transformed _) as [answer|reason|thrown]; simpl.
  - destruct (js_truthy _); simpl.
    + exists []. split; [done|]. intros e Hin. by apply elem_of_nil in Hin.
    + eexists. split; [done|]. intros e Hin.
      apply list_elem_of_singleton in Hin as ->. by eexists.
  - exists []. split; [done|]. intros e Hin. by apply elem_of_nil in Hin.
  - exists []. split; [done|]. intros e Hin. by apply elem_of_nil in Hin.
Qed.

(** An observation with its own subject and encounter, on a session
    without a patient. *)
Lemma create_context_complete_witness :
  ∃ tail,
    (BaseClient.create (T := Transformer.api)
       (BaseClient.hydrateResource Samples.no_patient_session)
       Samples.no_patient_session
       (<[ "encounter" := JObj {[ "reference" := JStr "Encounter/other" ]} ]>
          MoreSamples.observation_with_subject)
       None Samples.clock).1
    = CallCreate
        (<[ "encounter" := JObj {[ "reference" := JStr "Encounter/other" ]} ]>
           MoreSamples.observation_with_subject)
        (default ∅ None) :: tail
    ∧ ∀ e, e ∈ tail → ∃ answer, e = ConsoleLog answer.
Proof.
  apply (create_context_complete (T := Transformer.api)).
  - vm_compute. reflexivity.
  - by eexists.
  - by eexists.
Defined.

(** ** Failures of the session's [create] *)

(** An exception thrown by the call on the session itself, before it
    returns a promise, passes the handlers of [create] by: [create] throws
    it as it is. *)
Lemma create_passes_session_exception `{T : TransformerApi}
    (c : SubClient) (hook : JsObj → Async JsObj)
    (resource : JsObj) (additionalHeaders : option JsObj) (now : string)
    (transformed hydrated : JsObj) (asked : list Event) (e : Thrown) :
  toFhirClientType resource = Ok transformed →
  hook transformed now = (asked, Ok hydrated) →
  client_create c hydrated (default ∅ additionalHeaders) = Throws e →
  BaseClient.create hook c resource additionalHeaders now
  = (asked ++ [CallCreate hydrated (default ∅ additionalHeaders)], Throw e).
Proof.
  intros Ht Hh Hc. unfold BaseClient.create, session_create. run_async.
  rewrite spread_copy, Ht. simpl. rewrite Hh. simpl. by rewrite Hc.
Qed.

